(** * Bike-rentals dashboard (app.py): data pipeline

    A shallow embedding of the dashboard script: the loader that reads
    train.csv and derives the calendar columns, the sidebar filter, the
    KPI block, the monthly group-by, the scatter sample and the
    correlation matrix.

    A pandas DataFrame is dynamically typed, so a frame is modelled as the
    list of its column names together with its rows, each row a finite map
    from column names to cells.  A float64 cell is idealised as an exact
    rational; NaN is a cell of its own. *)

From Stdlib Require Import ZArith QArith Qreals Reals Lra String Ascii.
From stdpp Require Import gmap strings list sorting.

Close Scope R_scope.
Close Scope Q_scope.
Open Scope Z_scope.

(** ** Exceptions and results *)

(** The exception classes the modelled calls raise. *)
Inductive exn :=
  | FileNotFoundError
  | EmptyDataError
  | ParserError
  | UnicodeDecodeError
  | KeyError (key : string)
  | ValueError
  | TypeError
  | AttributeError.

(** The Python class name of an exception. *)
Definition exn_name (e : exn) : string :=
  match e with
  | FileNotFoundError => "FileNotFoundError"
  | EmptyDataError => "EmptyDataError"
  | ParserError => "ParserError"
  | UnicodeDecodeError => "UnicodeDecodeError"
  | KeyError _ => "KeyError"
  | ValueError => "ValueError"
  | TypeError => "TypeError"
  | AttributeError => "AttributeError"
  end.

Inductive result (A : Type) :=
  | Ok (a : A)
  | Raise (e : exn).
Arguments Ok {A} a.
Arguments Raise {A} e.

#[global] Instance result_ret : MRet result := λ A a, Ok a.
#[global] Instance result_bind : MBind result := λ A B f m,
  match m with
  | Ok a => f a
  | Raise e => Raise e
  end.

(** ** Timestamps *)

(** A parsed pandas Timestamp, by its calendar fields. *)
Record Timestamp := {
  ts_year : Z;
  ts_month : Z;
  ts_day : Z;
  ts_hour : Z;
  ts_minute : Z;
  ts_second : Z
}.

Definition is_leap (y : Z) : bool :=
  ((y mod 4 =? 0) && negb (y mod 100 =? 0)) || (y mod 400 =? 0).

Definition days_in_month (y m : Z) : Z :=
  if m =? 2 then (if is_leap y then 29 else 28)
  else if (m =? 4) || (m =? 6) || (m =? 9) || (m =? 11) then 30
  else 31.

(** Days between 1970-01-01 and the given civil date. *)
Definition days_from_civil (y m d : Z) : Z :=
  let y' := if m <=? 2 then y - 1 else y in
  let era := y' / 400 in
  let yoe := y' - era * 400 in
  let mp := if m <=? 2 then m + 9 else m - 3 in
  let doy := (153 * mp + 2) / 5 + d - 1 in
  let doe := yoe * 365 + yoe / 4 - yoe / 100 + doy in
  era * 146097 + doe - 719468.

(** [.dt.dayofweek]: Monday is 0; 1970-01-01 was a Thursday. *)
Definition ts_dayofweek (t : Timestamp) : Z :=
  (days_from_civil (ts_year t) (ts_month t) (ts_day t) + 3) mod 7.

Definition digit (c : ascii) : option Z :=
  let n := Z.of_N (N_of_ascii c) in
  if (48 <=? n) && (n <=? 57) then Some (n - 48) else None.

Fixpoint digits (acc : Z) (cs : list ascii) : option Z :=
  match cs with
  | [] => Some acc
  | c :: cs => d ← digit c; digits (10 * acc + d) cs
  end.

Definition in_range (lo hi x : Z) : bool := (lo <=? x) && (x <=? hi).

(** Timestamps in the layout the dataset uses, [YYYY-MM-DD HH:MM:SS]. *)
Definition parse_timestamp (s : string) : option Timestamp :=
  match list_ascii_of_string s with
  | [y1; y2; y3; y4; "-"; m1; m2; "-"; d1; d2; " ";
     h1; h2; ":"; i1; i2; ":"; s1; s2]%char =>
      y ← digits 0 [y1; y2; y3; y4];
      m ← digits 0 [m1; m2];
      d ← digits 0 [d1; d2];
      h ← digits 0 [h1; h2];
      i ← digits 0 [i1; i2];
      sec ← digits 0 [s1; s2];
      if in_range 1 12 m && in_range 1 (days_in_month y m) d
         && in_range 0 23 h && in_range 0 59 i && in_range 0 59 sec
      then Some {| ts_year := y; ts_month := m; ts_day := d;
                   ts_hour := h; ts_minute := i; ts_second := sec |}
      else None
  | _ => None
  end.

(** ** Cells, series and frames *)

Inductive value :=
  | VInt (z : Z)
  | VFloat (q : Q)
  | VStr (s : string)
  | VTime (t : Timestamp)
  | VNaN.

#[global] Instance Q_eq_dec : EqDecision Q.
Proof. solve_decision. Defined.
#[global] Instance Timestamp_eq_dec : EqDecision Timestamp.
Proof. solve_decision. Defined.
#[global] Instance value_eq_dec : EqDecision value.
Proof. solve_decision. Defined.
#[global] Instance exn_eq_dec : EqDecision exn.
Proof. solve_decision. Defined.

Abbreviation record := (gmap string value).
Abbreviation Series := (list value).

Record DataFrame := {
  columns : list string;
  rows : list record
}.

#[global] Instance DataFrame_eq_dec : EqDecision DataFrame.
Proof. solve_decision. Defined.
#[global] Instance result_eq_dec {A} `{EqDecision A} : EqDecision (result A).
Proof. solve_decision. Defined.

(** The cell of a row under a column; an absent cell reads as NaN. *)
Definition cell (c : string) (r : record) : value := default VNaN (r !! c).

(** [df[c]] *)
Definition getitem (df : DataFrame) (c : string) : result Series :=
  if bool_decide (c ∈ columns df) then Ok (cell c <$> rows df)
  else Raise (KeyError c).

(** [df[c] = s], for a series [s] computed from [df] itself. *)
Definition setitem (df : DataFrame) (c : string) (s : Series) : DataFrame :=
  {| columns := if bool_decide (c ∈ columns df) then columns df
                else columns df ++ [c];
     rows := zip_with (λ r v, <[c := v]> r) (rows df) s |}.

(** [pd.to_datetime(s)]: strings in the dataset's layout become
    timestamps, a missing cell stays missing (NaT), timestamps are kept.
    pandas parses more than this: other layouts and numeric cells are
    outside the model, which gives them up as unparseable, so that a
    success of the model is a success of pandas with the same timestamps,
    while a failure of the model says nothing about pandas. *)
Definition to_datetime1 (v : value) : result value :=
  match v with
  | VStr s =>
      match parse_timestamp s with
      | Some t => Ok (VTime t)
      | None => Raise ValueError
      end
  | VTime t => Ok (VTime t)
  | VNaN => Ok VNaN
  | _ => Raise ValueError
  end.

Definition to_datetime (s : Series) : result Series := mapM to_datetime1 s.

(** [s.dt.<field>]: only for datetime-like series; NaT gives NaN. *)
Definition dt1 (f : Timestamp → Z) (v : value) : result value :=
  match v with
  | VTime t => Ok (VInt (f t))
  | VNaN => Ok VNaN
  | _ => Raise AttributeError
  end.

Definition dt (f : Timestamp → Z) (s : Series) : result Series :=
  mapM (dt1 f) s.

(** The integer a numeric cell stands for, if it is one. *)
Definition as_integer (v : value) : option Z :=
  match v with
  | VInt z => Some z
  | VFloat q =>
      if Z.pos (Qden q) * (Qnum q / Z.pos (Qden q)) =? Qnum q
      then Some (Qnum q / Z.pos (Qden q)) else None
  | _ => None
  end.

(** [s.map(d)] for a dict [d] with integer keys: a key not in the dict
    gives NaN. *)
Definition series_map1 (d : gmap Z string) (v : value) : value :=
  match as_integer v ≫= (d !!.) with
  | Some s => VStr s
  | None => VNaN
  end.

Definition series_map (d : gmap Z string) (s : Series) : Series :=
  series_map1 d <$> s.

(** Python's [<=] and [<] on numbers; any comparison with NaN is false.
    The script compares hours only, which are numbers or NaN. *)
Definition as_number (v : value) : option Q :=
  match v with
  | VInt z => Some (inject_Z z)
  | VFloat q => Some q
  | _ => None
  end.

Definition num_le (a b : value) : bool :=
  match as_number a, as_number b with
  | Some x, Some y => Qle_bool x y
  | _, _ => false
  end.

Definition num_lt (a b : value) : bool :=
  match as_number a, as_number b with
  | Some x, Some y => negb (Qle_bool y x)
  | _, _ => false
  end.

(** ** The loader (app.py, load_data) *)

Definition season_map : gmap Z string :=
  {[ 1 := "spring"; 2 := "summer"; 3 := "fall"; 4 := "winter" ]}.

Definition dow_map : gmap Z string :=
  {[ 0 := "Mon"; 1 := "Tue"; 2 := "Wed"; 3 := "Thu"; 4 := "Fri";
     5 := "Sat"; 6 := "Sun" ]}.

Definition get_day_period (h : value) : string :=
  if num_le (VInt 0) h && num_lt h (VInt 6) then "night"
  else if num_le (VInt 6) h && num_lt h (VInt 12) then "morning"
  else if num_le (VInt 12) h && num_lt h (VInt 18) then "afternoon"
  else "evening".

(** [s.apply(f)] for a function returning a string. *)
Definition series_apply (f : value → string) (s : Series) : Series :=
  (λ v, VStr (f v)) <$> s.

(** What [pd.read_csv] finds at a path, in the cases modelled: nothing,
    an empty file, bytes that are not UTF-8, text that does not tokenize as
    delimited text, or a header with records.  The call has further ways
    to fail (the operating system's errors among them); nothing below says
    that these are all. *)
Inductive file :=
  | EmptyFile
  | Undecodable
  | Garbled
  | Csv (header : list string) (records : list record).

Definition read_csv (fs : gmap string file) (path : string)
    : result DataFrame :=
  match fs !! path with
  | None => Raise FileNotFoundError
  | Some EmptyFile => Raise EmptyDataError
  | Some Undecodable => Raise UnicodeDecodeError
  | Some Garbled => Raise ParserError
  | Some (Csv header records) => Ok {| columns := header; rows := records |}
  end.

(** [load_data()]; the [st.cache_data] memoisation returns a copy of the
    same table on every rerun and is not modelled. *)
Definition load_data (fs : gmap string file) : result DataFrame :=
  df ← read_csv fs "train.csv";
  c ← getitem df "datetime";
  t ← to_datetime c;
  let df := setitem df "datetime" t in
  c ← getitem df "datetime";
  y ← dt ts_year c;
  let df := setitem df "year" y in
  c ← getitem df "datetime";
  m ← dt ts_month c;
  let df := setitem df "month" m in
  c ← getitem df "datetime";
  w ← dt ts_dayofweek c;
  let df := setitem df "dayofweek" w in
  c ← getitem df "datetime";
  h ← dt ts_hour c;
  let df := setitem df "hour" h in
  c ← getitem df "season";
  let df := setitem df "season_name" (series_map season_map c) in
  c ← getitem df "dayofweek";
  let df := setitem df "day_name" (series_map dow_map c) in
  c ← getitem df "hour";
  let df := setitem df "day_period" (series_apply get_day_period c) in
  Ok df.

(** The loader read row by row: each assignment of a column writes, in
    every row, a cell computed from one cell of that row. *)
Definition assign (c c' : string) (f : value → result value) (r : record)
    : result record :=
  v ← f (cell c' r); Ok (<[c := v]> r).

Definition annotate_row (r : record) : result record :=
  r ← assign "datetime" "datetime" to_datetime1 r;
  r ← assign "year" "datetime" (dt1 ts_year) r;
  r ← assign "month" "datetime" (dt1 ts_month) r;
  r ← assign "dayofweek" "datetime" (dt1 ts_dayofweek) r;
  r ← assign "hour" "datetime" (dt1 ts_hour) r;
  r ← assign "season_name" "season" (λ v, Ok (series_map1 season_map v)) r;
  r ← assign "day_name" "dayofweek" (λ v, Ok (series_map1 dow_map v)) r;
  assign "day_period" "hour" (λ v, Ok (VStr (get_day_period v))) r.

(** The columns the loader adds, and the columns of the dataset that the
    script reads. *)
Definition derived_cols : list string :=
  ["year"; "month"; "dayofweek"; "hour"; "season_name"; "day_name";
   "day_period"].

Definition required_cols : list string :=
  ["datetime"; "season"; "workingday"; "temp"; "atemp"; "humidity";
   "windspeed"; "casual"; "registered"; "count"].

(** ** The script up to the sidebar (app.py, lines 11 to 58) *)

(** What Streamlit has drawn so far.  A run of the script is a function
    from the elements drawn so far to the elements drawn when it stops,
    with the value it produced or the exception that stopped it.  The
    elements of the dashboard body are kept by the call that draws them
    and their label. *)
Inductive element :=
  | PageConfig (page_title page_icon layout : string)
  | Title (body : string)
  | Markdown (body : string)
  | Other (call label : string).

#[global] Instance element_eq_dec : EqDecision element.
Proof. solve_decision. Defined.

Definition App (A : Type) : Type := list element → list element * result A.

#[global] Instance App_ret : MRet App := λ A a out, (out, Ok a).
#[global] Instance App_bind : MBind App := λ A B f m out,
  match m out with
  | (out', Ok a) => f a out'
  | (out', Raise e) => (out', Raise e)
  end.

Definition draw (e : element) : App () := λ out, (out ++ [e], Ok ()).
Definition lift {A} (r : result A) : App A := λ out, (out, r).

Definition page_config : element :=
  PageConfig "Washington D.C. Bike Rentals Dashboard" "🚴" "wide".

Definition title : string := "Washington D.C. Bike Rentals Dashboard 🚴".

Definition intro : string :=
  "
    Interactive dashboard summarizing the analysis of the Washington D.C. bike rental data  
    (Assignments I & II: EDA and visualizations).
    ".

Definition numeric_cols : list string :=
  ["temp"; "atemp"; "humidity"; "windspeed"; "casual"; "registered"; "count"].

(** What is on the page when the load begins. *)
Definition banner : list element :=
  [page_config; Title title; Markdown intro].

(** Lines 11 to 57: page set-up, title, introduction, then the load and
    [df["total"] = df["count"]]. *)
Definition startup (fs : gmap string file) : App DataFrame :=
  draw page_config;;
  draw (Title title);;
  draw (Markdown intro);;
  df ← lift (load_data fs);
  c ← lift (getitem df "count");
  mret (setitem df "total" c).

(** The whole script: the start-up followed by the sidebar and the
    dashboard body, given as the continuation [body]. *)
Definition script (body : DataFrame → App ()) (fs : gmap string file)
    : list element * result () :=
  (startup fs ≫= body) [].

(** ** Sidebar options and the filter (lines 65 to 87) *)

(** Python's [==] on cells; NaN equals nothing. *)
Definition value_eqb (a b : value) : bool :=
  match a, b with
  | VStr s, VStr t => bool_decide (s = t)
  | VTime s, VTime t => bool_decide (s = t)
  | _, _ =>
      match as_number a, as_number b with
      | Some x, Some y => Qeq_bool x y
      | _, _ => false
      end
  end.

(** Equality as pandas' hash tables see it ([isin], [unique]): like [==],
    and a missing value matches a missing value. *)
Definition same_value (a b : value) : bool :=
  match a, b with
  | VNaN, VNaN => true
  | _, _ => value_eqb a b
  end.

(** [s.isin(values)] *)
Definition isin (s : Series) (values : list value) : list bool :=
  (λ v, existsb (same_value v) values) <$> s.

(** [s == x] *)
Definition eq_scalar (s : Series) (x : value) : list bool :=
  (λ v, value_eqb v x) <$> s.

(** [df[m]] for a boolean series [m] *)
Definition mask (df : DataFrame) (m : list bool) : DataFrame :=
  {| columns := columns df;
     rows := (filter (λ rb, rb.2 = true) (zip (rows df) m)).*1 |}.

(** [s.unique()]: the distinct cells in order of first appearance. *)
Fixpoint unique_from (seen : list value) (s : Series) : Series :=
  match s with
  | [] => []
  | v :: s =>
      if existsb (same_value v) seen then unique_from seen s
      else v :: unique_from (v :: seen) s
  end.

Definition unique (s : Series) : Series := unique_from [] s.

(** [sorted(l)] on numbers. *)
Definition value_le (a b : value) : Prop := Is_true (num_le a b).

#[global] Instance value_le_dec : RelDecision value_le.
Proof. intros a b. unfold value_le. apply _. Defined.

Definition sorted (l : list value) : list value := merge_sort value_le l.

Definition year_options (df : DataFrame) : result (list value) :=
  y ← getitem df "year";
  Ok (sorted (unique y)).

Definition season_options (df : DataFrame) : result (list value) :=
  s ← getitem df "season_name";
  Ok (unique s).

(** The three options of the working-day radio. *)
Inductive workingday_choice :=
  | All
  | Working_days
  | Non_working_days.

Definition filtered (df : DataFrame) (selected_years selected_seasons : list value)
    (workingday_filter : workingday_choice) : result DataFrame :=
  y ← getitem df "year";
  let filtered := mask df (isin y selected_years) in
  s ← getitem filtered "season_name";
  let filtered := mask filtered (isin s selected_seasons) in
  match workingday_filter with
  | Working_days =>
      w ← getitem filtered "workingday";
      Ok (mask filtered (eq_scalar w (VInt 1)))
  | Non_working_days =>
      w ← getitem filtered "workingday";
      Ok (mask filtered (eq_scalar w (VInt 0)))
  | All => Ok filtered
  end.

(** ** KPIs (lines 97 to 105) *)

(** Two's-complement wrap-around of an integer to 64 bits: int64 cells
    are added in int64. *)
Definition wrap_int64 (z : Z) : Z := (z + 2 ^ 63) mod 2 ^ 64 - 2 ^ 63.

Definition add_value (acc v : value) : result value :=
  match acc, v with
  | _, VNaN => Ok acc
  | VInt a, VInt b => Ok (VInt (wrap_int64 (a + b)))
  | VInt a, VFloat q => Ok (VFloat (inject_Z a + q))
  | VFloat p, VInt b => Ok (VFloat (p + inject_Z b))
  | VFloat p, VFloat q => Ok (VFloat (p + q))
  | _, _ => Raise TypeError
  end.

(** [s.sum()]: missing cells are skipped; the sum of nothing is 0. *)
Fixpoint sum_from (acc : value) (s : Series) : result value :=
  match s with
  | [] => Ok acc
  | v :: s => acc' ← add_value acc v; sum_from acc' s
  end.

Definition series_sum (s : Series) : result value := sum_from (VInt 0) s.

(** The number of cells that are not missing. *)
Definition count_valid (s : Series) : Z :=
  Z.of_nat (length (filter (λ v, v ≠ VNaN) s)).

(** The cells of a series added as float64, the way [mean] accumulates
    them, integer cells included. *)
Definition add_float (acc : Q) (v : value) : result Q :=
  match v with
  | VNaN => Ok acc
  | VInt b => Ok (acc + inject_Z b)%Q
  | VFloat q => Ok (acc + q)%Q
  | _ => Raise TypeError
  end.

Fixpoint float_sum_from (acc : Q) (s : Series) : result Q :=
  match s with
  | [] => Ok acc
  | v :: s => acc' ← add_float acc v; float_sum_from acc' s
  end.

(** [s.mean()]: the float64 sum over the number of cells that are not
    missing; NaN when there is none. *)
Definition series_mean (s : Series) : result value :=
  total ← float_sum_from 0%Q s;
  if count_valid s =? 0 then Ok VNaN
  else Ok (VFloat (total / inject_Z (count_valid s))).

(** Python's [int(x)] on a number: truncation; NaN cannot be converted. *)
Definition py_int (v : value) : result Z :=
  match v with
  | VInt z => Ok z
  | VFloat q => Ok (Z.quot (Qnum q) (Z.pos (Qden q)))
  | VNaN => Raise ValueError
  | _ => Raise TypeError
  end.

(** The four figures of the KPI row, before they are formatted as text. *)
Record KPIs := {
  total_rentals : Z;
  mean_hourly_rentals : value;
  registered_rentals : Z;
  casual_rentals : Z
}.

Definition kpis (filtered : DataFrame) : result KPIs :=
  c ← getitem filtered "count";
  s ← series_sum c;
  total ← py_int s;
  c ← getitem filtered "count";
  m ← series_mean c;
  c ← getitem filtered "registered";
  s ← series_sum c;
  registered ← py_int s;
  c ← getitem filtered "casual";
  s ← series_sum c;
  casual ← py_int s;
  Ok {| total_rentals := total; mean_hourly_rentals := m;
        registered_rentals := registered; casual_rentals := casual |}.

(** ** Monthly trend (lines 118 to 120) *)

(** The group a row falls in.  A row whose year or month is missing is in
    no group (groupby drops NaN keys); the loader writes integers or NaN
    into both columns. *)
Definition int_cell (v : value) : option Z :=
  match v with
  | VInt z => Some z
  | _ => None
  end.

Definition group_key (r : record) : option (Z * Z) :=
  y ← int_cell (cell "year" r);
  m ← int_cell (cell "month" r);
  Some (y, m).

(** groupby sorts the groups by key: by year, and by month within a year. *)
Definition key_le (a b : Z * Z) : Prop :=
  a.1 < b.1 ∨ (a.1 = b.1 ∧ a.2 ≤ b.2).

#[global] Instance key_le_dec : RelDecision key_le.
Proof. intros a b. unfold key_le. apply _. Defined.

Definition group_keys (df : DataFrame) : list (Z * Z) :=
  merge_sort key_le (remove_dups (omap group_key (rows df))).

Definition group_rows (df : DataFrame) (k : Z * Z) : list record :=
  filter (λ r, group_key r = Some k) (rows df).

(** One output row of [groupby(["year", "month"], as_index=False)[c].mean()] *)
Definition group_mean (df : DataFrame) (c : string) (k : Z * Z)
    : result record :=
  m ← series_mean (cell c <$> group_rows df k);
  Ok {[ "year" := VInt k.1; "month" := VInt k.2; c := m ]}.

Definition monthly (filtered : DataFrame) (metric_choice : string)
    : result DataFrame :=
  getitem filtered "year";;
  getitem filtered "month";;
  getitem filtered metric_choice;;
  rs ← mapM (group_mean filtered metric_choice) (group_keys filtered);
  Ok {| columns := ["year"; "month"; metric_choice]; rows := rs |}.

(** ** Scatter sample (line 166) *)

Section sampling.
(** numpy's generator: its states, seeding, and the shuffled positions
    [permutation(n)] draws from a state. *)
Context {rng : Type}.
Variable RandomState : Z → rng.
Variable permutation : rng → nat → list nat.

(** [choice(a, size, replace=False)] *)
Definition choice (g : rng) (a size : nat) : list nat :=
  take size (permutation g a).

(** [df.take(locs)] *)
Definition take_rows (df : DataFrame) (locs : list nat) : DataFrame :=
  {| columns := columns df; rows := omap (λ i, rows df !! i) locs |}.

(** [df.sample(n, random_state=...)]; with no [random_state] the draw
    comes from the process-wide generator [ambient]. *)
Definition sample (df : DataFrame) (n : Z) (random_state : option Z)
    (ambient : rng) : result DataFrame :=
  if (n <? 0) || (Z.of_nat (length (rows df)) <? n) then Raise ValueError
  else
    let g := match random_state with
             | Some seed => RandomState seed
             | None => ambient
             end in
    Ok (take_rows df (choice g (length (rows df)) (Z.to_nat n))).

(** [filtered.sample(min(len(filtered), 5000), random_state=0)] *)
Definition scatter_sample (filtered : DataFrame) (ambient : rng)
    : result DataFrame :=
  sample filtered (Z.min (Z.of_nat (length (rows filtered))) 5000)
    (Some 0) ambient.
End sampling.

(** ** Correlation matrix (line 205) *)

(** A cell as [corr] reads it: a number, or missing. *)
Definition float_cell (v : value) : result (option Q) :=
  match v with
  | VInt z => Ok (Some (inject_Z z))
  | VFloat q => Ok (Some q)
  | VNaN => Ok None
  | _ => Raise ValueError
  end.

Definition numeric_column (df : DataFrame) (c : string)
    : result (list (option Q)) :=
  s ← getitem df c;
  mapM float_cell s.

(** The observations two columns share: the rows where neither is
    missing. *)
Definition complete_pairs (xs ys : list (option Q)) : list (Q * Q) :=
  omap (λ p, x ← p.1; y ← p.2; Some (x, y)) (zip xs ys).

Definition Qsum (l : list Q) : Q := foldr Qplus 0%Q l.

Definition Qmean (l : list Q) : Q :=
  (Qsum l / inject_Z (Z.of_nat (length l)))%Q.

(** Sum of the products of the deviations from the means. *)
Definition codeviation (ps : list (Q * Q)) : Q :=
  Qsum ((λ p, (p.1 - Qmean ps.*1) * (p.2 - Qmean ps.*2))%Q <$> ps).

Definition sq_deviation (l : list Q) : Q :=
  Qsum ((λ x, (x - Qmean l) * (x - Qmean l))%Q <$> l).

(** Pearson's coefficient of the shared observations; NaN when there are
    none or when a column does not vary.  The square root makes it a real
    number. *)
Definition pearson (ps : list (Q * Q)) : option R :=
  let divisor2 := (sq_deviation ps.*1 * sq_deviation ps.*2)%Q in
  if bool_decide (ps = []) then None
  else if Qeq_bool divisor2 0 then None
  else Some (Q2R (codeviation ps) / sqrt (Q2R divisor2))%R.

(** [df[cols].corr()]: the matrix by rows. *)
Definition corr (df : DataFrame) (cols : list string)
    : result (list (list (option R))) :=
  data ← mapM (numeric_column df) cols;
  Ok ((λ xs, (λ ys, pearson (complete_pairs xs ys)) <$> data) <$> data).

(** The entry of a matrix at a row and a column, if it has one. *)
Definition entry {A} (M : list (list A)) (i j : nat) : option A :=
  row ← M !! i; row !! j.

(** The numbers a column holds, and whether they vary: whether the sum of
    their squared deviations from the mean, and so their variance, is not
    zero. *)
Definition column_numbers (df : DataFrame) (c : string) : list Q :=
  omap as_number (cell c <$> rows df).

Definition varies (df : DataFrame) (c : string) : Prop :=
  Qeq_bool (sq_deviation (column_numbers df c)) 0 = false.

(** The integers a column holds, row by row (0 where a cell is not an
    integer; on an annotated table every cell of an integer column is). *)
Definition int_column (df : DataFrame) (c : string) : list Z :=
  (λ r, default 0 (int_cell (cell c r))) <$> rows df.

(** An integer that int64 holds. *)
Definition fits_int64 (z : Z) : Prop := - 2 ^ 63 ≤ z < 2 ^ 63.

(** The sum of a list of integers. *)
Definition Zsum (zs : list Z) : Z := foldr Z.add 0 zs.

(** The options of the metric select box. *)
Definition metric_options : list string := ["count"; "casual"; "registered"].

(** What one output row of the monthly table says about its group. *)
Definition group_row (f : DataFrame) (metric : string) (k : Z * Z)
    (o : record) : Prop :=
  cell "year" o = VInt k.1 ∧ cell "month" o = VInt k.2
  ∧ ∃ zs, zs ≠ []
      ∧ cell metric <$> group_rows f k = VInt <$> zs
      ∧ cell metric o
        = VFloat (inject_Z (Zsum zs) / inject_Z (Z.of_nat (length zs))).

(** ** Annotated tables *)

(** What [to_datetime] leaves in a column: timestamps and NaT. *)
Definition datetime_like (v : value) : bool :=
  match v with VTime _ | VNaN => true | _ => false end.

Definition is_int (v : value) : bool :=
  match v with VInt _ => true | _ => false end.

Definition is_number (v : value) : bool :=
  match v with VInt _ | VFloat _ => true | _ => false end.

Definition is_str (v : value) : bool :=
  match v with VStr _ => true | _ => false end.

(** Column [c] is present and all its cells pass [p]. *)
Definition typed (p : value → bool) (df : DataFrame) (c : string) : bool :=
  bool_decide (c ∈ columns df) && forallb (λ r, p (cell c r)) (rows df).

Definition int_cols : list string :=
  ["year"; "month"; "dayofweek"; "hour"; "workingday";
   "casual"; "registered"; "count"; "total"].

Definition float_cols : list string :=
  ["temp"; "atemp"; "humidity"; "windspeed"].

Definition str_cols : list string :=
  ["season_name"; "day_name"; "day_period"].

(** The table the dashboard works on: every column the script reads is
    there and holds cells of its kind, none missing. *)
Definition annotated (df : DataFrame) : Prop :=
  Is_true (forallb (typed is_int df) int_cols
           && forallb (typed is_number df) float_cols
           && forallb (typed is_str df) str_cols).

(** A record of the dataset as [read_csv] types it. *)
Definition raw_record (r : record) : Prop :=
  (∃ s, cell "datetime" r = VStr s ∧ is_Some (parse_timestamp s))
  ∧ (∃ z, cell "season" r = VInt z ∧ 1 ≤ z ≤ 4)
  ∧ Forall (λ c, Is_true (is_int (cell c r)))
      ["workingday"; "casual"; "registered"; "count"]
  ∧ Forall (λ c, Is_true (is_number (cell c r))) float_cols.

(** A row of an annotated table. *)
Definition row_typed (r : record) : Prop :=
  Forall (λ c, Is_true (is_int (cell c r))) int_cols
  ∧ Forall (λ c, Is_true (is_number (cell c r))) float_cols
  ∧ Forall (λ c, Is_true (is_str (cell c r))) str_cols.

(** The rows the three sidebar selections keep. *)
Definition flag_matches (w : workingday_choice) (r : record) : Prop :=
  match w with
  | All => True
  | Working_days => cell "workingday" r = VInt 1
  | Non_working_days => cell "workingday" r = VInt 0
  end.

#[global] Instance flag_matches_dec w r : Decision (flag_matches w r).
Proof. destruct w; simpl; apply _. Defined.

Definition keep (ys : list Z) (ss : list string) (w : workingday_choice)
    (r : record) : Prop :=
  cell "year" r ∈ VInt <$> ys ∧ cell "season_name" r ∈ VStr <$> ss
  ∧ flag_matches w r.

#[global] Instance keep_dec ys ss w r : Decision (keep ys ss w r).
Proof. unfold keep. apply _. Defined.

(** The three tests of the filter as the script evaluates them on a row. *)
Definition passes (ys ss : list value) (w : workingday_choice) (r : record)
    : bool :=
  existsb (same_value (cell "year" r)) ys
  && existsb (same_value (cell "season_name" r)) ss
  && match w with
     | All => true
     | Working_days => value_eqb (cell "workingday" r) (VInt 1)
     | Non_working_days => value_eqb (cell "workingday" r) (VInt 0)
     end.

(** ** A small table *)

Definition sample_record (ts : string) (season workingday : Z)
    (temp : Q) (humidity casual registered : Z) : record :=
  {[ "datetime" := VStr ts; "season" := VInt season;
     "holiday" := VInt 0; "workingday" := VInt workingday;
     "weather" := VInt 1; "temp" := VFloat temp;
     "atemp" := VFloat (temp + (9 # 2)); "humidity" := VInt humidity;
     "windspeed" := VFloat (inject_Z casual / 2);
     "casual" := VInt casual; "registered" := VInt registered;
     "count" := VInt (casual + registered) ]}.

Definition csv_header : list string :=
  ["datetime"; "season"; "holiday"; "workingday"; "weather"; "temp";
   "atemp"; "humidity"; "windspeed"; "casual"; "registered"; "count"].

Definition sample_csv : list record :=
  [sample_record "2011-02-05 03:00:00" 1 0 (984 # 100) 81 3 13;
   sample_record "2011-02-07 14:00:00" 1 1 (1066 # 100) 76 8 32;
   sample_record "2012-01-02 08:00:00" 1 1 (902 # 100) 80 5 27;
   sample_record "2012-07-02 19:00:00" 3 1 (3034 # 100) 55 40 210].

Definition sample_fs : gmap string file :=
  {[ "train.csv" := Csv csv_header sample_csv ]}.

(** The frame the start-up hands to the dashboard for [sample_fs]. *)
Definition sample_df : DataFrame :=
  match (startup sample_fs []).2 with
  | Ok df => df
  | Raise _ => {| columns := []; rows := [] |}
  end.

Definition sample_loaded : DataFrame :=
  match load_data sample_fs with
  | Ok df => df
  | Raise _ => {| columns := []; rows := [] |}
  end.

Definition sample_row : record := default ∅ (rows sample_loaded !! 0%nat).

(** A train.csv that has the datetime and season columns only. *)
Definition no_count_header : list string := ["datetime"; "season"].

Definition no_count_fs : gmap string file :=
  {[ "train.csv" := Csv no_count_header
       [{[ "datetime" := VStr "2011-01-01 00:00:00"; "season" := VInt 1 ]}] ]}.

(** A toy generator: its state is the seed, and it shuffles by reversing. *)
Definition seeded (seed : Z) : Z := seed.

Definition reversed (g : Z) (n : nat) : list nat := reverse (seq 0 n).

(** A train.csv whose only record has no datetime, and the row the loader
    makes of it. *)
Definition nat_record : record := {[ "datetime" := VNaN; "season" := VInt 9 ]}.

Definition nat_fs : gmap string file :=
  {[ "train.csv" := Csv no_count_header [nat_record] ]}.

Definition nat_row : record :=
  match annotate_row nat_record with
  | Ok r => r
  | Raise _ => ∅
  end.

(** The last row of the loaded sample, a record of season 3. *)
Definition fall_row : record := default ∅ (rows sample_loaded !! 3%nat).

(** What the loader makes of [no_count_fs], and the monthly table of the
    sample for the metric count. *)
Definition sample_no_count : DataFrame :=
  match load_data no_count_fs with
  | Ok df => df
  | Raise _ => {| columns := []; rows := [] |}
  end.

Definition sample_monthly : DataFrame :=
  match monthly sample_df "count" with
  | Ok df => df
  | Raise _ => {| columns := []; rows := [] |}
  end.

(** The view of the sample for 2011, spring and the choice All. *)
Definition sample_view : DataFrame :=
  match filtered sample_df [VInt 2011] [VStr "spring"] All with
  | Ok f => f
  | Raise _ => {| columns := []; rows := [] |}
  end.

(** The KPI figures of a view without rows. *)
Definition no_rentals : KPIs :=
  {| total_rentals := 0; mean_hourly_rentals := VNaN;
     registered_rentals := 0; casual_rentals := 0 |}.

(** * Properties *)

(** A closed decidable statement is settled by evaluating its decision
    procedure. *)
Ltac decide_closed :=
  apply (bool_decide_eq_true_1 _); vm_compute; reflexivity.

(** ** Results *)

Lemma bind_Ok {A B} (m : result A) (f : A → result B) b :
  m ≫= f = Ok b ↔ ∃ a, m = Ok a ∧ f a = Ok b.
Proof.
  destruct m as [a|e]; simpl.
  - split; [eauto|]. by intros (a' & [= <-] & ?).
  - split; [done|]. by intros (? & ? & ?).
Qed.

Lemma bind_Raise {A B} (m : result A) (f : A → result B) e :
  m ≫= f = Raise e ↔ m = Raise e ∨ ∃ a, m = Ok a ∧ f a = Raise e.
Proof.
  destruct m as [a|e']; simpl.
  - split; [eauto|]. by intros [?|(a' & [= <-] & ?)].
  - split; [intros [= <-]; eauto|]. by intros [[= ->]|(? & ? & ?)].
Qed.

Lemma mapM_Ok {A B} (f : A → result B) (l : list A) (k : list B) :
  mapM f l = Ok k ↔ Forall2 (λ a b, f a = Ok b) l k.
Proof.
  revert k. induction l as [|a l IH]; intros k; simpl.
  - split; [intros [= <-]; constructor | by inversion 1].
  - split.
    + intros (b & Hb & (k' & Hk' & [= <-])%bind_Ok)%bind_Ok.
      constructor; [done|]. by apply IH.
    + inversion 1 as [|? b ? k' Hb Hk']; subst.
      apply bind_Ok. exists b. split; [done|].
      apply bind_Ok. exists k'. split; [by apply IH | done].
Qed.

Lemma mapM_total {A B} (f : A → result B) (l : list A) :
  (∀ a, a ∈ l → ∃ b, f a = Ok b) → ∃ k, mapM f l = Ok k.
Proof.
  induction l as [|a l IH]; intros Hf; [by exists []|].
  destruct (Hf a) as [b Hb]; [left|].
  destruct IH as [k Hk]; [intros; apply Hf; by right|].
  exists (b :: k). apply mapM_Ok. constructor; [done | by apply mapM_Ok].
Qed.

(** ** Frames *)

Lemma getitem_Ok df c s :
  getitem df c = Ok s ↔ c ∈ columns df ∧ s = cell c <$> rows df.
Proof.
  unfold getitem. case_bool_decide; split.
  - by intros [= <-].
  - by intros [_ ->].
  - done.
  - by intros [? _].
Qed.

Lemma getitem_in df c :
  c ∈ columns df → getitem df c = Ok (cell c <$> rows df : Series).
Proof. intros. by apply getitem_Ok. Qed.

Lemma getitem_Raise df c e :
  getitem df c = Raise e ↔ (c ∉ columns df) ∧ e = KeyError c.
Proof.
  unfold getitem. case_bool_decide; split.
  - done.
  - by intros [? _].
  - by intros [= <-].
  - by intros [_ ->].
Qed.

Lemma mask_test df (p : record → bool) :
  mask df (p <$> rows df)
  = {| columns := columns df; rows := filter (λ r, Is_true (p r)) (rows df) |}.
Proof.
  unfold mask. f_equal.
  induction (rows df) as [|r l IH]; [done|]. csimpl.
  rewrite !filter_cons. csimpl. destruct (p r).
  - rewrite !decide_True by done. csimpl. by rewrite IH.
  - rewrite decide_False by done.
    rewrite decide_False by (simpl; tauto). apply IH.
Qed.

Lemma filter_ext_in {A} (P Q : A → Prop) `{!∀ x, Decision (P x)}
    `{!∀ x, Decision (Q x)} (l : list A) :
  (∀ x, x ∈ l → P x ↔ Q x) → filter P l = filter Q l.
Proof.
  induction l as [|x l IH]; intros HPQ; [done|].
  rewrite !filter_cons. rewrite IH by (intros; apply HPQ; by right).
  apply decide_ext, HPQ. by left.
Qed.

Lemma setitem_cells df c c' (g : value → value) :
  rows (setitem df c (g <$> (cell c' <$> rows df)))
  = (λ r, <[c := g (cell c' r)]> r) <$> rows df.
Proof.
  simpl. induction (rows df) as [|r l IH]; [done|]. csimpl. by rewrite IH.
Qed.

Lemma columns_setitem df c s x :
  x ∈ columns (setitem df c s) ↔ x ∈ columns df ∨ x = c.
Proof.
  simpl. case_bool_decide.
  - split; [auto|]. by intros [?| ->].
  - rewrite elem_of_app, list_elem_of_singleton. done.
Qed.
(** ** The filter *)

Lemma mask_column df c (t : value → bool) :
  mask df (t <$> (cell c <$> rows df))
  = {| columns := columns df;
       rows := filter (λ r, Is_true (t (cell c r))) (rows df) |}.
Proof. rewrite <- list_fmap_compose. apply (mask_test df (t ∘ cell c)). Qed.

Lemma filtered_intro df ys ss w :
  "year" ∈ columns df → "season_name" ∈ columns df →
  (w ≠ All → "workingday" ∈ columns df) →
  filtered df ys ss w
  = Ok {| columns := columns df;
          rows := filter (λ r, Is_true (passes ys ss w r)) (rows df) |}.
Proof.
  intros Hy Hs Hw. unfold filtered, isin, eq_scalar.
  rewrite (getitem_in _ _ Hy). cbn [mbind result_bind]. cbv zeta.
  rewrite !mask_column.
  rewrite getitem_in by done. cbn [mbind result_bind rows columns].
  rewrite !mask_column. cbn [rows columns]. rewrite list_filter_filter.
  destruct w.
  - do 2 f_equal. apply list_filter_iff. intros r. unfold passes.
    rewrite !andb_True. change (Is_true true) with True. tauto.
  - rewrite getitem_in by (cbn [columns]; auto).
    cbn [mbind result_bind rows columns].
    rewrite !mask_column. cbn [rows columns]. rewrite list_filter_filter.
    do 2 f_equal. apply list_filter_iff. intros r. unfold passes.
    rewrite !andb_True. tauto.
  - rewrite getitem_in by (cbn [columns]; auto).
    cbn [mbind result_bind rows columns].
    rewrite !mask_column. cbn [rows columns]. rewrite list_filter_filter.
    do 2 f_equal. apply list_filter_iff. intros r. unfold passes.
    rewrite !andb_True. tauto.
Qed.

Lemma filtered_inv df ys ss w f :
  filtered df ys ss w = Ok f →
  "year" ∈ columns df ∧ "season_name" ∈ columns df
  ∧ (w ≠ All → "workingday" ∈ columns df).
Proof.
  unfold filtered. intros (y & [Hy _]%getitem_Ok & H)%bind_Ok.
  apply bind_Ok in H as (s & [Hs _]%getitem_Ok & H).
  split; [done|]. split; [done|]. intros Hw.
  destruct w; [done| |];
    by apply bind_Ok in H as (? & [? _]%getitem_Ok & _).
Qed.

Lemma filtered_rows df ys ss w f :
  filtered df ys ss w = Ok f →
  columns f = columns df
  ∧ rows f = filter (λ r, Is_true (passes ys ss w r)) (rows df).
Proof.
  intros Hf. destruct (filtered_inv _ _ _ _ _ Hf) as (Hy & Hs & Hw).
  rewrite filtered_intro in Hf by done. by injection Hf as <-.
Qed.

(** On an annotated table the tests of the script are plain membership of
    the year and the season name, and equality of the working-day flag. *)
Lemma typed_elim p df c :
  typed p df c → c ∈ columns df ∧ ∀ r, r ∈ rows df → p (cell c r).
Proof.
  unfold typed. rewrite andb_True, bool_decide_spec, forallb_True, Forall_forall.
  done.
Qed.

Lemma annotated_int df c :
  annotated df → c ∈ int_cols →
  c ∈ columns df ∧ ∀ r, r ∈ rows df → ∃ z, cell c r = VInt z.
Proof.
  unfold annotated. rewrite !andb_True, !forallb_True, !Forall_forall.
  intros [[Hi _] _] Hc. destruct (typed_elim _ _ _ (Hi _ Hc)) as [? Hr].
  split; [done|]. intros r Hin. specialize (Hr r Hin).
  destruct (cell c r); try done. eauto.
Qed.

Lemma annotated_number df c :
  annotated df → c ∈ float_cols →
  c ∈ columns df ∧ ∀ r, r ∈ rows df → is_number (cell c r).
Proof.
  unfold annotated. rewrite !andb_True, !forallb_True, !Forall_forall.
  intros [[_ Hi] _] Hc. by apply typed_elim, Hi.
Qed.

Lemma annotated_str df c :
  annotated df → c ∈ str_cols →
  c ∈ columns df ∧ ∀ r, r ∈ rows df → ∃ s, cell c r = VStr s.
Proof.
  unfold annotated. rewrite !andb_True, !forallb_True, !Forall_forall.
  intros [_ Hi] Hc. destruct (typed_elim _ _ _ (Hi _ Hc)) as [? Hr].
  split; [done|]. intros r Hin. specialize (Hr r Hin).
  destruct (cell c r); try done. eauto.
Qed.

Lemma Qeq_bool_inject_Z a b : Qeq_bool (inject_Z a) (inject_Z b) = bool_decide (a = b).
Proof.
  unfold Qeq_bool, inject_Z. simpl. rewrite !Z.mul_1_r.
  case_bool_decide; [by apply Z.eqb_eq | by apply Z.eqb_neq].
Qed.

Lemma same_value_int a b : same_value (VInt a) (VInt b) = bool_decide (a = b).
Proof. apply Qeq_bool_inject_Z. Qed.

Lemma existsb_same_int z (ys : list Z) :
  existsb (same_value (VInt z)) (VInt <$> ys) ↔ VInt z ∈ VInt <$> ys.
Proof.
  induction ys as [|y ys IH]; [by rewrite elem_of_nil|].
  rewrite fmap_cons. cbn [existsb].
  rewrite elem_of_cons, orb_True, IH, same_value_int, bool_decide_spec.
  split; (intros [E|?]; [left; congruence | by right]).
Qed.

Lemma existsb_same_str s (ss : list string) :
  existsb (same_value (VStr s)) (VStr <$> ss) ↔ VStr s ∈ VStr <$> ss.
Proof.
  induction ss as [|y ss IH]; [by rewrite elem_of_nil|].
  rewrite fmap_cons. cbn [existsb].
  rewrite elem_of_cons, orb_True, IH. simpl. rewrite bool_decide_spec.
  split; (intros [E|?]; [left; congruence | by right]).
Qed.

Lemma value_eqb_int a b : value_eqb (VInt a) (VInt b) ↔ VInt a = VInt b.
Proof.
  unfold value_eqb. simpl. rewrite Qeq_bool_inject_Z, bool_decide_spec.
  split; congruence.
Qed.

Lemma passes_keep df ys ss w r :
  annotated df → r ∈ rows df →
  passes (VInt <$> ys) (VStr <$> ss) w r ↔ keep ys ss w r.
Proof.
  intros Ha Hr. unfold passes, keep.
  destruct (annotated_int df "year" Ha) as [_ Hy]; [set_solver|].
  destruct (annotated_int df "workingday" Ha) as [_ Hw];
    [unfold int_cols; set_solver|].
  destruct (annotated_str df "season_name" Ha) as [_ Hs]; [set_solver|].
  destruct (Hy r Hr) as [y ->], (Hw r Hr) as [f Hf], (Hs r Hr) as [s ->].
  rewrite !andb_True, existsb_same_int, existsb_same_str.
  destruct w; simpl; rewrite ?Hf, ?value_eqb_int; tauto.
Qed.

Lemma same_value_refl v : same_value v v = true.
Proof.
  destruct v as [z|q|s|t|].
  - rewrite same_value_int. by apply bool_decide_eq_true.
  - apply Qeq_bool_iff. reflexivity.
  - by apply bool_decide_eq_true.
  - by apply bool_decide_eq_true.
  - done.
Qed.

Lemma unique_from_covers seen s v :
  v ∈ s →
  existsb (same_value v) seen ∨ existsb (same_value v) (unique_from seen s).
Proof.
  revert seen. induction s as [|x s IH]; intros seen Hv; [by inversion Hv|].
  cbn [unique_from]. apply elem_of_cons in Hv as [->|Hv].
  - destruct (existsb (same_value x) seen); [by left|].
    right. cbn [existsb]. by rewrite same_value_refl.
  - destruct (existsb (same_value x) seen) eqn:E; [by apply IH|].
    destruct (IH (x :: seen) Hv) as [H|H].
    + cbn [existsb] in H. apply orb_True in H as [H|H].
      * right. cbn [existsb]. apply orb_True. by left.
      * by left.
    + right. cbn [existsb]. apply orb_True. by right.
Qed.

Lemma unique_covers s v : v ∈ s → existsb (same_value v) (unique s).
Proof. intros Hv. by destruct (unique_from_covers [] s v Hv). Qed.

Lemma existsb_elem {A} (p : A → bool) l :
  existsb p l ↔ ∃ x, x ∈ l ∧ p x.
Proof.
  induction l as [|a l IH]; cbn [existsb].
  - split; [done|]. intros (x & Hx & _). by inversion Hx.
  - rewrite orb_True, IH. split.
    + intros [?|(x & ? & ?)]; [exists a | exists x]; split; try done;
        [by left | by right].
    + intros (x & [->|?]%elem_of_cons & ?); [by left | right; eauto].
Qed.

Lemma existsb_Permutation {A} (p : A → bool) l k :
  l ≡ₚ k → existsb p l → existsb p k.
Proof.
  intros Hp. rewrite !existsb_elem.
  intros (x & Hx & Hpx). exists x. by rewrite <- Hp.
Qed.

Lemma filter_all {A} (P : A → Prop) `{!∀ x, Decision (P x)} (l : list A) :
  (∀ x, x ∈ l → P x) → filter P l = l.
Proof.
  induction l as [|x l IH]; intros HP; [done|].
  rewrite filter_cons, decide_True by (apply HP; by left).
  f_equal. apply IH. intros. apply HP. by right.
Qed.

Lemma filter_none {A} (P : A → Prop) `{!∀ x, Decision (P x)} (l : list A) :
  (∀ x, x ∈ l → ¬ P x) → filter P l = [].
Proof.
  induction l as [|x l IH]; intros HP; [done|].
  rewrite filter_cons, decide_False by (apply HP; by left).
  apply IH. intros. apply HP. by right.
Qed.

Lemma annotated_sample : annotated sample_df.
Proof. by vm_compute. Qed.

(** C1. On an annotated table the filter returns, for any selected years,
    season names and working-day choice, exactly the rows whose year is
    among the years, whose season name is among the names and whose
    working-day flag matches the choice, in the order of the table: the
    result is the table filtered by that test, a subsequence of it. *)
Theorem filter_keeps_matching_rows df (ys : list Z) (ss : list string) w :
  annotated df →
  ∃ f, filtered df (VInt <$> ys) (VStr <$> ss) w = Ok f
       ∧ columns f = columns df
       ∧ rows f = filter (keep ys ss w) (rows df)
       ∧ rows f `sublist_of` rows df.
Proof.
  intros Ha.
  destruct (annotated_int df "year" Ha) as [Hy _]; [set_solver|].
  destruct (annotated_int df "workingday" Ha) as [Hw _];
    [unfold int_cols; set_solver|].
  destruct (annotated_str df "season_name" Ha) as [Hs _]; [set_solver|].
  eexists. split; [by apply filtered_intro|]. cbn [columns rows].
  split; [done|]. split.
  - apply filter_ext_in. intros r Hr. by apply (passes_keep df).
  - apply sublist_filter.
Qed.

Lemma filter_keeps_matching_rows_witness :
  ∃ f, filtered sample_df (VInt <$> [2011]) (VStr <$> ["spring"])
         Non_working_days = Ok f
       ∧ columns f = columns sample_df
       ∧ rows f = filter (keep [2011] ["spring"] Non_working_days)
                    (rows sample_df)
       ∧ rows f `sublist_of` rows sample_df.
Proof. apply filter_keeps_matching_rows. by vm_compute. Defined.

(** C2. Selecting every year and every season name the table holds, with
    the working-day choice All, gives back the table itself: the same rows
    in the same order. *)
Theorem filter_full_selection_is_identity df :
  annotated df →
  ∃ ys ss, year_options df = Ok ys ∧ season_options df = Ok ss
           ∧ filtered df ys ss All = Ok df.
Proof.
  intros Ha.
  destruct (annotated_int df "year" Ha) as [Hy _]; [set_solver|].
  destruct (annotated_str df "season_name" Ha) as [Hs _]; [set_solver|].
  unfold year_options, season_options. rewrite !getitem_in by done.
  cbn [mbind result_bind]. do 2 eexists. split; [done|]. split; [done|].
  rewrite filtered_intro by done. destruct df as [cs rs]. cbn [columns rows].
  do 2 f_equal. apply filter_all. intros r Hr. unfold passes.
  rewrite !andb_True. split; [split|done].
  - apply (existsb_Permutation _ (unique (cell "year" <$> rs))).
    + symmetry. apply merge_sort_Permutation.
    + apply unique_covers. by apply list_elem_of_fmap_2.
  - apply unique_covers. by apply list_elem_of_fmap_2.
Qed.

Lemma filter_full_selection_is_identity_witness :
  ∃ ys ss, year_options sample_df = Ok ys ∧ season_options sample_df = Ok ss
           ∧ filtered sample_df ys ss All = Ok sample_df.
Proof. apply filter_full_selection_is_identity. by vm_compute. Defined.

(** C3. The filter is idempotent: filtering its own result again with the
    same three selections returns that result unchanged. *)
Theorem filter_idempotent df ys ss w f :
  filtered df ys ss w = Ok f → filtered f ys ss w = Ok f.
Proof.
  intros Hf. destruct (filtered_inv _ _ _ _ _ Hf) as (Hy & Hs & Hw).
  destruct (filtered_rows _ _ _ _ _ Hf) as [Hc Hr].
  rewrite filtered_intro by (by rewrite Hc).
  destruct f as [cs rs]. cbn [columns rows] in *. do 2 f_equal.
  rewrite Hr. by apply list_filter_filter_l.
Qed.

Lemma filter_idempotent_witness :
  filtered
    {| columns := columns sample_df;
       rows := filter (λ r, Is_true (passes [VInt 2012] [VStr "spring"; VStr "fall"] Working_days r))
                 (rows sample_df) |}
    [VInt 2012] [VStr "spring"; VStr "fall"] Working_days
  = Ok {| columns := columns sample_df;
          rows := filter (λ r, Is_true (passes [VInt 2012] [VStr "spring"; VStr "fall"] Working_days r))
                    (rows sample_df) |}.
Proof.
  apply (filter_idempotent sample_df). reflexivity.
Defined.

(** C4. With no year or no season selected the filtered view is empty,
    and the KPI block computes on it without an exception: the three sums
    are 0 and the mean of count is NaN, not 0. *)
Theorem empty_selection_kpis df ys ss w :
  annotated df → ys = [] ∨ ss = [] →
  ∃ f, filtered df ys ss w = Ok f ∧ rows f = [] ∧ kpis f = Ok no_rentals.
Proof.
  intros Ha Hsel.
  destruct (annotated_int df "year" Ha) as [Hy _]; [set_solver|].
  destruct (annotated_int df "workingday" Ha) as [Hw _];
    [unfold int_cols; set_solver|].
  destruct (annotated_int df "count" Ha) as [Hc _];
    [unfold int_cols; set_solver|].
  destruct (annotated_int df "registered" Ha) as [Hg _];
    [unfold int_cols; set_solver|].
  destruct (annotated_int df "casual" Ha) as [Hl _];
    [unfold int_cols; set_solver|].
  destruct (annotated_str df "season_name" Ha) as [Hs _]; [set_solver|].
  eexists. split; [by apply filtered_intro|]. cbn [rows].
  assert (filter (λ r, Is_true (passes ys ss w r)) (rows df) = []) as ->.
  { apply filter_none. intros r _. unfold passes.
    destruct Hsel as [-> | ->]; simpl; rewrite ?andb_false_r; tauto. }
  split; [done|]. unfold kpis.
  rewrite !getitem_in by done. done.
Qed.

Lemma empty_selection_kpis_witness :
  ∃ f, filtered sample_df [] [VStr "spring"] All = Ok f ∧ rows f = []
       ∧ kpis f = Ok no_rentals.
Proof. apply empty_selection_kpis; [by vm_compute | by left]. Defined.

(** ** The loader *)

Lemma cell_insert_eq c v (r : record) : cell c (<[c := v]> r) = v.
Proof. unfold cell. by rewrite lookup_insert_eq. Qed.

Lemma cell_insert_ne c c' v (r : record) :
  c ≠ c' → cell c' (<[c := v]> r) = cell c' r.
Proof. intros. unfold cell. by rewrite lookup_insert_ne. Qed.

Ltac invert_binds H :=
  repeat (cbv zeta in H;
          let x := fresh "x" in
          let Hx := fresh "Hx" in
          apply bind_Ok in H as (x & Hx & H)).

Lemma load_data_last_step fs df :
  load_data fs = Ok df →
  ∃ df7, "hour" ∈ columns df7
         ∧ rows df = (λ r, <["day_period" := VStr (get_day_period (cell "hour" r))]> r)
                     <$> rows df7.
Proof.
  unfold load_data. intros H. invert_binds H.
  cbv zeta in H. injection H as <-.
  match goal with
  | Hx : getitem ?d "hour" = Ok _ |- _ =>
      apply getitem_Ok in Hx as [Hh ->]; exists d
  end.
  split; [done|]. unfold series_apply. apply setitem_cells.
Qed.

Lemma get_day_period_int h :
  get_day_period (VInt h)
  = if (0 <=? h) && (h <? 6) then "night"
    else if (6 <=? h) && (h <? 12) then "morning"
    else if (12 <=? h) && (h <? 18) then "afternoon"
    else "evening".
Proof.
  unfold get_day_period, num_le, num_lt, as_number, Qle_bool, inject_Z.
  cbn [Qnum Qden]. rewrite !Z.mul_1_r.
  replace (negb (6 <=? h)) with (h <? 6) by (rewrite Z.leb_antisym; by destruct (h <? 6)).
  replace (negb (12 <=? h)) with (h <? 12) by (rewrite Z.leb_antisym; by destruct (h <? 12)).
  replace (negb (18 <=? h)) with (h <? 18) by (rewrite Z.leb_antisym; by destruct (h <? 18)).
  done.
Qed.

(** C5. In the table the loader returns, the day period of a row is the
    function [get_day_period] of that row's hour and of nothing else; it
    is one of night, morning, afternoon and evening; and on the hours 0 to
    23 the four values split the day at 6, 12 and 18: night on [0,6),
    morning on [6,12), afternoon on [12,18), evening on [18,24). *)
Theorem day_period_buckets fs df r :
  load_data fs = Ok df → r ∈ rows df →
  cell "day_period" r = VStr (get_day_period (cell "hour" r))
  ∧ get_day_period (cell "hour" r) ∈ ["night"; "morning"; "afternoon"; "evening"]
  ∧ ∀ h, 0 ≤ h < 24 →
      (get_day_period (VInt h) = "night" ↔ 0 ≤ h < 6)
      ∧ (get_day_period (VInt h) = "morning" ↔ 6 ≤ h < 12)
      ∧ (get_day_period (VInt h) = "afternoon" ↔ 12 ≤ h < 18)
      ∧ (get_day_period (VInt h) = "evening" ↔ 18 ≤ h < 24).
Proof.
  intros (df7 & _ & Hrows)%load_data_last_step Hr.
  rewrite Hrows in Hr. apply list_elem_of_fmap in Hr as (r0 & -> & _).
  split; [|split].
  - by rewrite cell_insert_eq, cell_insert_ne.
  - unfold get_day_period.
    repeat (match goal with |- context [if ?b then _ else _] => destruct b end);
      set_solver.
  - intros h Hh. rewrite get_day_period_int.
    destruct (Z.leb_spec 0 h), (Z.ltb_spec h 6), (Z.leb_spec 6 h),
      (Z.ltb_spec h 12), (Z.leb_spec 12 h), (Z.ltb_spec h 18);
      cbn [andb]; (split; [|split; [|split]]); split; (done || lia).
Qed.

Lemma day_period_buckets_witness :
  cell "day_period" sample_row = VStr (get_day_period (cell "hour" sample_row))
  ∧ get_day_period (cell "hour" sample_row)
    ∈ ["night"; "morning"; "afternoon"; "evening"]
  ∧ ∀ h, 0 ≤ h < 24 →
      (get_day_period (VInt h) = "night" ↔ 0 ≤ h < 6)
      ∧ (get_day_period (VInt h) = "morning" ↔ 6 ≤ h < 12)
      ∧ (get_day_period (VInt h) = "afternoon" ↔ 12 ≤ h < 18)
      ∧ (get_day_period (VInt h) = "evening" ↔ 18 ≤ h < 24).
Proof.
  apply (day_period_buckets sample_fs sample_loaded).
  - reflexivity.
  - apply (list_elem_of_lookup_2 _ 0%nat). reflexivity.
Defined.

(** ** The start-up *)

Lemma startup_run fs out :
  startup fs out
  = (out ++ banner,
     df ← load_data fs; c ← getitem df "count"; Ok (setitem df "total" c)).
Proof.
  unfold startup, banner, draw, lift, mbind, mret, App_bind, App_ret.
  cbn [result_bind]. rewrite <- !app_assoc. cbn [app].
  destruct (load_data fs) as [df|e]; [|done]. simpl.
  by destruct (getitem df "count").
Qed.

Lemma script_load_failure body fs e :
  load_data fs = Raise e → script body fs = (banner, Raise e).
Proof.
  intros H. unfold script, mbind, App_bind. rewrite startup_run, H. done.
Qed.

Lemma startup_Ok fs out out' df :
  startup fs out = (out', Ok df) →
  ∃ df8, load_data fs = Ok df8 ∧ "count" ∈ columns df8
         ∧ columns df = columns (setitem df8 "total" [])
         ∧ rows df = (λ r, <["total" := cell "count" r]> r) <$> rows df8.
Proof.
  rewrite startup_run. intros [= _ H].
  apply bind_Ok in H as (df8 & Hload & H).
  apply bind_Ok in H as (c & [Hc ->]%getitem_Ok & [= <-]).
  exists df8. split; [done|]. split; [done|]. split; [done|].
  rewrite <- (list_fmap_id (cell "count" <$> rows df8)).
  apply (setitem_cells df8 "total" "count" (λ v, v)).
Qed.

(** C10. The table the start-up hands to the filter has a column total
    that repeats the column count cell by cell, and since the filter only
    drops rows the same holds in every filtered view. *)
Theorem total_equals_count fs out out' df :
  startup fs out = (out', Ok df) →
  "total" ∈ columns df
  ∧ (∀ r, r ∈ rows df → cell "total" r = cell "count" r)
  ∧ ∀ ys ss w f, filtered df ys ss w = Ok f →
      "total" ∈ columns f
      ∧ ∀ r, r ∈ rows f → cell "total" r = cell "count" r.
Proof.
  intros (df8 & _ & _ & Hcols & Hrows)%startup_Ok.
  assert ("total" ∈ columns df) as Ht.
  { rewrite Hcols. apply columns_setitem. by right. }
  assert (∀ r, r ∈ rows df → cell "total" r = cell "count" r) as Hall.
  { intros r Hr. rewrite Hrows in Hr.
    apply list_elem_of_fmap in Hr as (r0 & -> & _).
    by rewrite cell_insert_eq, cell_insert_ne. }
  split; [done|]. split; [done|].
  intros ys ss w f [Hc Hr]%filtered_rows. split; [by rewrite Hc|].
  intros r Hin. apply Hall. rewrite Hr in Hin.
  by apply list_elem_of_filter in Hin as [_ ?].
Qed.

Lemma total_equals_count_witness :
  "total" ∈ columns sample_df
  ∧ (∀ r, r ∈ rows sample_df → cell "total" r = cell "count" r)
  ∧ ∀ ys ss w f, filtered sample_df ys ss w = Ok f →
      "total" ∈ columns f
      ∧ ∀ r, r ∈ rows f → cell "total" r = cell "count" r.
Proof.
  apply (total_equals_count sample_fs [] banner). reflexivity.
Defined.

(** ** What the loader can raise *)

Lemma mapM_length {A B} (f : A → result B) l k :
  mapM f l = Ok k → length k = length l.
Proof. intros H%mapM_Ok. symmetry. by eapply Forall2_length. Qed.

Lemma to_datetime_like s t :
  to_datetime s = Ok t → Forall (λ v, Is_true (datetime_like v)) t.
Proof.
  intros H%mapM_Ok. induction H as [|v v' s t Hv _ IH]; constructor; [|done].
  destruct v; simpl in Hv; try done; try by injection Hv as <-.
  destruct (parse_timestamp s0); [by injection Hv as <-|done].
Qed.

Lemma dt_total f t :
  Forall (λ v, Is_true (datetime_like v)) t → ∃ s, dt f t = Ok s.
Proof.
  intros Ht. apply mapM_total. intros v Hv.
  rewrite Forall_forall in Ht. specialize (Ht v Hv).
  destruct v; try done; simpl; eauto.
Qed.

Lemma cells_setitem df c s :
  length s = length (rows df) → cell c <$> rows (setitem df c s) = s.
Proof.
  simpl. revert s. induction (rows df) as [|r l IH]; intros [|v s] Hlen;
    try done. csimpl. rewrite cell_insert_eq. f_equal. apply IH.
  simpl in Hlen. lia.
Qed.

Lemma cells_setitem_ne df c c' s :
  c ≠ c' → length s = length (rows df) →
  cell c' <$> rows (setitem df c s) = cell c' <$> rows df.
Proof.
  intros Hne. simpl. revert s.
  induction (rows df) as [|r l IH]; intros [|v s] Hlen; try done.
  csimpl. rewrite cell_insert_ne by done. f_equal. apply IH.
  simpl in Hlen. lia.
Qed.

Lemma length_rows_setitem df c s :
  length s = length (rows df) → length (rows (setitem df c s)) = length (rows df).
Proof. intros H. simpl. rewrite length_zip_with. lia. Qed.

Lemma getitem_setitem_eq df c s :
  length s = length (rows df) → getitem (setitem df c s) c = Ok s.
Proof.
  intros Hlen. rewrite getitem_in by (apply columns_setitem; auto).
  by rewrite cells_setitem.
Qed.

Lemma getitem_setitem_ne df c c' s s' :
  c ≠ c' → length s = length (rows df) → getitem df c' = Ok s' →
  getitem (setitem df c s) c' = Ok s'.
Proof.
  intros Hne Hlen [Hc ->]%getitem_Ok.
  rewrite getitem_in by (apply columns_setitem; auto).
  by rewrite cells_setitem_ne.
Qed.

Lemma getitem_Ok_length df c s :
  getitem df c = Ok s → length s = length (rows df).
Proof. intros [_ ->]%getitem_Ok. apply length_fmap. Qed.

Lemma dt_length f t s : dt f t = Ok s → length s = length t.
Proof. apply mapM_length. Qed.

Lemma season_setitem df c s :
  c ≠ "season" → "season" ∈ columns (setitem df c s) ↔ "season" ∈ columns df.
Proof. intros. rewrite columns_setitem. naive_solver. Qed.

(** Once the datetime column has parsed, the loader fails only if the
    season column is absent. *)
Lemma load_data_after_parse fs df0 t :
  read_csv fs "train.csv" = Ok df0 →
  "datetime" ∈ columns df0 →
  to_datetime (cell "datetime" <$> rows df0) = Ok t →
  if bool_decide ("season" ∈ columns df0)
  then ∃ df, load_data fs = Ok df
  else load_data fs = Raise (KeyError "season").
Proof.
  intros Hread Hdt Ht. unfold load_data. rewrite Hread.
  cbn [mbind result_bind]. rewrite (getitem_in _ _ Hdt).
  cbn [mbind result_bind]. rewrite Ht. cbn [mbind result_bind]. cbv zeta.
  pose proof (to_datetime_like _ _ Ht) as Hlike.
  assert (length t = length (rows df0)) as Hlen.
  { apply mapM_length in Ht. by rewrite length_fmap in Ht. }
  destruct (dt_total ts_year t Hlike) as [y Hy].
  destruct (dt_total ts_month t Hlike) as [m Hm].
  destruct (dt_total ts_dayofweek t Hlike) as [w Hw].
  destruct (dt_total ts_hour t Hlike) as [h Hh].
  apply dt_length in Hy as Ly, Hm as Lm, Hw as Lw, Hh as Lh.
  set (df1 := setitem df0 "datetime" t).
  assert (getitem df1 "datetime" = Ok t) as G1 by by apply getitem_setitem_eq.
  assert (length (rows df1) = length t) as L1
    by (unfold df1; rewrite length_rows_setitem; done).
  rewrite G1. cbn [mbind result_bind]. rewrite Hy. cbn [mbind result_bind].
  set (df2 := setitem df1 "year" y).
  assert (getitem df2 "datetime" = Ok t) as G2
    by (apply getitem_setitem_ne; [done|lia|done]).
  assert (length (rows df2) = length t) as L2
    by (unfold df2; rewrite length_rows_setitem; lia).
  rewrite G2. cbn [mbind result_bind]. rewrite Hm. cbn [mbind result_bind].
  set (df3 := setitem df2 "month" m).
  assert (getitem df3 "datetime" = Ok t) as G3
    by (apply getitem_setitem_ne; [done|lia|done]).
  assert (length (rows df3) = length t) as L3
    by (unfold df3; rewrite length_rows_setitem; lia).
  rewrite G3. cbn [mbind result_bind]. rewrite Hw. cbn [mbind result_bind].
  set (df4 := setitem df3 "dayofweek" w).
  assert (getitem df4 "datetime" = Ok t) as G4
    by (apply getitem_setitem_ne; [done|lia|done]).
  assert (length (rows df4) = length t) as L4
    by (unfold df4; rewrite length_rows_setitem; lia).
  rewrite G4. cbn [mbind result_bind]. rewrite Hh. cbn [mbind result_bind].
  set (df5 := setitem df4 "hour" h).
  assert ("season" ∈ columns df5 ↔ "season" ∈ columns df0) as Hs5.
  { unfold df5, df4, df3, df2, df1. by rewrite !season_setitem. }
  case_bool_decide as Hseason.
  - rewrite getitem_in by by apply Hs5. cbn [mbind result_bind].
    rewrite getitem_in.
    2:{ apply columns_setitem. left. apply columns_setitem. left.
        apply columns_setitem. by right. }
    cbn [mbind result_bind].
    rewrite getitem_in.
    2:{ apply columns_setitem. left. apply columns_setitem. left.
        apply columns_setitem. by right. }
    cbn [mbind result_bind]. eauto.
  - assert (getitem df5 "season" = Raise (KeyError "season")) as ->; [|done].
    apply getitem_Raise. split; [|done]. by rewrite Hs5.
Qed.

Lemma mapM_Raise {A B} (f : A → result B) (l : list A) e :
  mapM f l = Raise e → ∃ a, a ∈ l ∧ f a = Raise e.
Proof.
  induction l as [|a l IH]; [done|]. simpl.
  intros [H|(b & Hb & H)]%bind_Raise.
  - exists a. split; [by left | done].
  - apply bind_Raise in H as [H|(k & _ & H)]; [|done].
    destruct (IH H) as (a' & ? & ?). exists a'. split; [by right | done].
Qed.

Lemma read_csv_Ok fs path df :
  read_csv fs path = Ok df ↔ fs !! path = Some (Csv (columns df) (rows df)).
Proof.
  unfold read_csv. destruct (fs !! path) as [[| | |h rs]|]; split; try done.
  - by intros [= <-].
  - intros [= -> ->]. by destruct df.
Qed.

Lemma load_data_columns fs df :
  load_data fs = Ok df →
  ∃ df0, read_csv fs "train.csv" = Ok df0
         ∧ ∀ c, c ∈ columns df ↔ c ∈ columns df0 ∨ c ∈ derived_cols.
Proof.
  unfold load_data. intros H. invert_binds H.
  cbv zeta in H. injection H as <-.
  eexists. split; [done|]. intros c.
  match goal with
  | Hg : getitem ?d "datetime" = Ok _ |- context [columns ?d] =>
      apply getitem_Ok in Hg as [Hdt _]; clear - Hdt
  end.
  rewrite !columns_setitem. unfold derived_cols.
  rewrite !elem_of_cons, elem_of_nil. intuition (subst; auto).
Qed.

Lemma script_without_count body fs h rs df :
  fs !! "train.csv" = Some (Csv h rs) → load_data fs = Ok df →
  "count" ∉ h →
  script body fs = (banner, Raise (KeyError "count")).
Proof.
  intros Hfs Hload Hcount.
  destruct (load_data_columns _ _ Hload) as (df0 & Hread & Hcols).
  apply read_csv_Ok in Hread. rewrite Hfs in Hread.
  injection Hread as Hh _.
  assert (getitem df "count" = Raise (KeyError "count")) as Hget.
  { apply getitem_Raise. split; [|done]. rewrite Hcols, <- Hh.
    unfold derived_cols. set_solver. }
  unfold script, mbind, App_bind. rewrite startup_run, Hload.
  cbn [mbind result_bind]. by rewrite Hget.
Qed.

(** C9, as the script has it.  There is no DataLoadError, and the loader
    checks only the columns it reads.  It raises FileNotFoundError when
    train.csv is missing, EmptyDataError when it is empty,
    UnicodeDecodeError when its bytes do not decode, ParserError when it
    does not tokenize, and KeyError when it has no datetime column; when
    the datetime column parses, it raises KeyError if the season column is
    absent and otherwise returns the table, whatever other columns the
    file has or lacks.  No exception the loader raises is a DataLoadError,
    and none is caught: it ends the script with that exception when the
    page set-up, the title and the introduction have been drawn, and
    nothing of the dashboard body is drawn.  A table the loader returns
    without a count column ends the script in the same way on the next
    line, with KeyError count. *)
Theorem loader_failure_stops_script body fs :
  (fs !! "train.csv" = None → load_data fs = Raise FileNotFoundError)
  ∧ (fs !! "train.csv" = Some EmptyFile → load_data fs = Raise EmptyDataError)
  ∧ (fs !! "train.csv" = Some Undecodable →
       load_data fs = Raise UnicodeDecodeError)
  ∧ (fs !! "train.csv" = Some Garbled → load_data fs = Raise ParserError)
  ∧ (∀ h rs, fs !! "train.csv" = Some (Csv h rs) → "datetime" ∉ h →
       load_data fs = Raise (KeyError "datetime"))
  ∧ (∀ h rs t, fs !! "train.csv" = Some (Csv h rs) → "datetime" ∈ h →
       to_datetime (cell "datetime" <$> rs) = Ok t → "season" ∉ h →
       load_data fs = Raise (KeyError "season"))
  ∧ (∀ h rs t, fs !! "train.csv" = Some (Csv h rs) → "datetime" ∈ h →
       to_datetime (cell "datetime" <$> rs) = Ok t → "season" ∈ h →
       ∃ df, load_data fs = Ok df)
  ∧ (∀ e, load_data fs = Raise e →
       script body fs = (banner, Raise e) ∧ exn_name e ≠ "DataLoadError")
  ∧ ∀ h rs df, fs !! "train.csv" = Some (Csv h rs) → load_data fs = Ok df →
      "count" ∉ h →
      script body fs = (banner, Raise (KeyError "count")).
Proof.
  split_and!.
  - intros H. unfold load_data, read_csv. by rewrite H.
  - intros H. unfold load_data, read_csv. by rewrite H.
  - intros H. unfold load_data, read_csv. by rewrite H.
  - intros H. unfold load_data, read_csv. by rewrite H.
  - intros h rs H Hdt. unfold load_data, read_csv. rewrite H.
    cbn [mbind result_bind].
    assert (getitem {| columns := h; rows := rs |} "datetime"
            = Raise (KeyError "datetime")) as ->; [|done].
    by apply getitem_Raise.
  - intros h rs t H Hdt Ht Hs.
    assert (read_csv fs "train.csv" = Ok {| columns := h; rows := rs |})
      as Hread by by apply read_csv_Ok.
    pose proof (load_data_after_parse fs _ t Hread Hdt Ht) as Hload.
    by rewrite bool_decide_eq_false_2 in Hload.
  - intros h rs t H Hdt Ht Hs.
    assert (read_csv fs "train.csv" = Ok {| columns := h; rows := rs |})
      as Hread by by apply read_csv_Ok.
    pose proof (load_data_after_parse fs _ t Hread Hdt Ht) as Hload.
    by rewrite bool_decide_eq_true_2 in Hload.
  - intros e He. split; [by apply script_load_failure | by destruct e].
  - intros h rs df. apply script_without_count.
Qed.

Lemma loader_failure_stops_script_witness :
  script (λ _, mret ()) ∅ = (banner, Raise FileNotFoundError)
  ∧ exn_name FileNotFoundError ≠ "DataLoadError"
  ∧ (∃ df, load_data no_count_fs = Ok df)
  ∧ script (λ _, mret ()) no_count_fs = (banner, Raise (KeyError "count")).
Proof.
  destruct (loader_failure_stops_script (λ _, mret ()) ∅)
    as (Hnone & _ & _ & _ & _ & _ & _ & Hstop & _).
  destruct (Hstop FileNotFoundError (Hnone (lookup_empty _))) as [? ?].
  split; [done|]. split; [done|].
  destruct (loader_failure_stops_script (λ _, mret ()) no_count_fs)
    as (_ & _ & _ & _ & _ & _ & Hloads & _ & Hcount).
  split.
  - apply (Hloads no_count_header
             [{[ "datetime" := VStr "2011-01-01 00:00:00";
                 "season" := VInt 1 ]}]
             [VTime {| ts_year := 2011; ts_month := 1; ts_day := 1;
                       ts_hour := 0; ts_minute := 0; ts_second := 0 |}]).
    + reflexivity.
    + unfold no_count_header. set_solver.
    + reflexivity.
    + unfold no_count_header. set_solver.
  - apply (Hcount no_count_header
             [{[ "datetime" := VStr "2011-01-01 00:00:00";
                 "season" := VInt 1 ]}]
             sample_no_count).
    + reflexivity.
    + reflexivity.
    + unfold no_count_header. set_solver.
Defined.

(** C9 as stated fails.  A train.csv without the count column loads
    without any exception, and a missing train.csv raises
    FileNotFoundError, not a DataLoadError, after three elements of the
    page have been drawn. *)
Lemma loader_accepts_table_without_count :
  "count" ∉ no_count_header
  ∧ (∃ df, load_data no_count_fs = Ok df)
  ∧ script (λ _, mret ()) ∅ = (banner, Raise FileNotFoundError)
  ∧ exn_name FileNotFoundError ≠ "DataLoadError"
  ∧ length banner = 3%nat.
Proof.
  split; [unfold no_count_header; set_solver|].
  split; [exists sample_no_count; reflexivity|]. done.
Qed.

(** ** Monthly trend *)

#[global] Instance key_le_total : Total key_le.
Proof. intros [a b] [c d]. unfold key_le. simpl. lia. Qed.

#[global] Instance key_le_trans : Transitive key_le.
Proof. intros [a b] [c d] [e f]. unfold key_le. simpl. lia. Qed.

Lemma int_cell_Some v z : int_cell v = Some z ↔ v = VInt z.
Proof. destruct v; simpl; split; congruence. Qed.

Lemma group_key_Some r y m :
  group_key r = Some (y, m) ↔ cell "year" r = VInt y ∧ cell "month" r = VInt m.
Proof.
  unfold group_key. rewrite <- !int_cell_Some.
  destruct (int_cell (cell "year" r)), (int_cell (cell "month" r)); simpl;
    split; (intros [??] || intros ?); try done; simplify_eq; done.
Qed.

Lemma elem_of_group_keys df k :
  k ∈ group_keys df ↔ ∃ r, r ∈ rows df ∧ group_key r = Some k.
Proof.
  unfold group_keys.
  rewrite merge_sort_Permutation, elem_of_remove_dups, list_elem_of_omap.
  done.
Qed.

Lemma NoDup_group_keys df : NoDup (group_keys df).
Proof.
  unfold group_keys. rewrite merge_sort_Permutation. apply NoDup_remove_dups.
Qed.

Lemma sorted_group_keys df : StronglySorted key_le (group_keys df).
Proof. apply StronglySorted_merge_sort; apply _. Qed.

Lemma inject_Z_plus_eq a b :
  (inject_Z a + inject_Z b)%Q = inject_Z (a + b).
Proof. unfold Qplus, inject_Z. simpl. f_equal. lia. Qed.

Lemma float_sum_from_ints a zs :
  float_sum_from (inject_Z a) (VInt <$> zs) = Ok (inject_Z (a + Zsum zs)).
Proof.
  revert a. induction zs as [|z zs IH]; intros a; csimpl.
  - by rewrite Z.add_0_r.
  - rewrite inject_Z_plus_eq, IH. by rewrite Z.add_assoc.
Qed.

Lemma count_valid_ints zs : count_valid (VInt <$> zs) = Z.of_nat (length zs).
Proof.
  unfold count_valid. rewrite filter_all, length_fmap; [done|].
  by intros v (z & -> & _)%list_elem_of_fmap.
Qed.

Lemma series_mean_ints zs :
  zs ≠ [] →
  series_mean (VInt <$> zs)
  = Ok (VFloat (inject_Z (Zsum zs) / inject_Z (Z.of_nat (length zs)))).
Proof.
  intros Hne. unfold series_mean.
  change 0%Q with (inject_Z 0). rewrite float_sum_from_ints.
  cbn [mbind result_bind]. rewrite count_valid_ints, Z.add_0_l.
  assert (Z.of_nat (length zs) =? 0 = false) as ->; [|done].
  apply Z.eqb_neq. destruct zs; [congruence|]. simpl. lia.
Qed.

Lemma int_column_cells df c (l : list record) :
  annotated df → c ∈ int_cols → l ⊆ rows df →
  cell c <$> l = VInt <$> ((λ r, default 0 (int_cell (cell c r))) <$> l).
Proof.
  intros Ha Hc Hl. destruct (annotated_int df c Ha Hc) as [_ Hr].
  rewrite <- list_fmap_compose. apply list_fmap_ext. intros i r Hi.
  destruct (Hr r) as [z Hz]; [apply Hl; by eapply list_elem_of_lookup_2|].
  simpl. by rewrite Hz.
Qed.

Lemma group_mean_row f metric k :
  annotated f → metric ∈ metric_options → k ∈ group_keys f →
  ∃ o, group_mean f metric k = Ok o ∧ group_row f metric k o.
Proof.
  intros Ha Hm Hk.
  assert (metric ∈ int_cols) as Hi by (unfold metric_options, int_cols in *; set_solver).
  assert (metric ≠ "year" ∧ metric ≠ "month") as [Hy Hmo]
    by (unfold metric_options in Hm; set_solver).
  assert (group_rows f k ⊆ rows f) as Hsub
    by (intros r; unfold group_rows; rewrite list_elem_of_filter; tauto).
  pose proof (int_column_cells f metric (group_rows f k) Ha Hi Hsub) as Hcells.
  set (zs := (λ r, default 0 (int_cell (cell metric r))) <$> group_rows f k) in *.
  assert (zs ≠ []) as Hne.
  { apply elem_of_group_keys in Hk as (r & Hr & Hkey).
    assert (r ∈ group_rows f k) as Hin
      by (unfold group_rows; by apply list_elem_of_filter).
    intros Hz. unfold zs in Hz. apply fmap_nil_inv in Hz.
    rewrite Hz in Hin. by inversion Hin. }
  unfold group_mean. rewrite Hcells.
  fold zs. rewrite series_mean_ints by done. cbn [mbind result_bind].
  eexists. split; [done|]. unfold group_row.
  split; [by rewrite cell_insert_eq|].
  split; [by rewrite cell_insert_ne, cell_insert_eq|].
  exists zs. split; [done|]. split; [done|].
  rewrite !cell_insert_ne by done. unfold cell.
  by rewrite lookup_singleton_eq.
Qed.

Lemma monthly_rows f metric (l : list (Z * Z)) :
  annotated f → metric ∈ metric_options → l ⊆ group_keys f →
  ∃ rs, mapM (group_mean f metric) l = Ok rs
        ∧ Forall2 (group_row f metric) l rs.
Proof.
  intros Ha Hm. induction l as [|k l IH]; intros Hl.
  - exists []. split; [done | constructor].
  - destruct (group_mean_row f metric k Ha Hm) as (o & Ho & Hrow);
      [apply Hl; by left|].
    destruct IH as (rs & Hrs & Hall); [intros x Hx; apply Hl; by right|].
    exists (o :: rs). split; [|by constructor].
    apply mapM_Ok. constructor; [done | by apply mapM_Ok].
Qed.

(** C6, as the script has it.  For a metric among count, casual and
    registered the monthly table has exactly one row for every pair of
    year and month that occurs in the filtered view; the row carries the
    pair and the mean of the metric over the rows of that pair, their sum
    over their number; and the rows are ordered by year, and by month
    within a year. *)
Theorem monthly_one_row_per_year_month f metric :
  annotated f → metric ∈ metric_options →
  ∃ out ks,
    monthly f metric = Ok out
    ∧ NoDup ks
    ∧ (∀ y m, (y, m) ∈ ks
         ↔ ∃ r, r ∈ rows f ∧ cell "year" r = VInt y ∧ cell "month" r = VInt m)
    ∧ StronglySorted key_le ks
    ∧ Forall2 (group_row f metric) ks (rows out).
Proof.
  intros Ha Hm.
  assert (metric ∈ int_cols) as Hi by (unfold metric_options, int_cols in *; set_solver).
  destruct (annotated_int f "year" Ha) as [Hy _]; [set_solver|].
  destruct (annotated_int f "month" Ha) as [Hmo _]; [unfold int_cols; set_solver|].
  destruct (annotated_int f metric Ha Hi) as [Hme _].
  destruct (monthly_rows f metric (group_keys f) Ha Hm) as (rs & Hrs & Hall);
    [done|].
  exists {| columns := ["year"; "month"; metric]; rows := rs |}, (group_keys f).
  split_and!.
  - unfold monthly. rewrite !getitem_in by done. cbn [mbind result_bind].
    by rewrite Hrs.
  - apply NoDup_group_keys.
  - intros y m. rewrite elem_of_group_keys.
    by setoid_rewrite group_key_Some.
  - apply sorted_group_keys.
  - done.
Qed.

Lemma monthly_one_row_per_year_month_witness :
  ∃ out ks,
    monthly sample_df "casual" = Ok out
    ∧ NoDup ks
    ∧ (∀ y m, (y, m) ∈ ks
         ↔ ∃ r, r ∈ rows sample_df
                ∧ cell "year" r = VInt y ∧ cell "month" r = VInt m)
    ∧ StronglySorted key_le ks
    ∧ Forall2 (group_row sample_df "casual") ks (rows out).
Proof.
  apply monthly_one_row_per_year_month; [by vm_compute|].
  unfold metric_options. set_solver.
Defined.

(** C6 as stated fails on the order.  In the monthly table of the sample
    the row of February 2011 comes before the row of January 2012: the
    months of the rows read 2, 1, 7, which is not ascending. *)
Lemma monthly_not_ordered_by_month :
  ∃ out, monthly sample_df "count" = Ok out
         ∧ (λ o, (cell "month" o, cell "year" o)) <$> rows out
           = [(VInt 2, VInt 2011); (VInt 1, VInt 2012); (VInt 7, VInt 2012)]
         ∧ ¬ Sorted Z.le (omap (λ o, int_cell (cell "month" o)) (rows out)).
Proof.
  exists sample_monthly. split; [reflexivity|]. split; [decide_closed|].
  vm_compute. intros H. inversion H as [|? ? _ Hd]; subst.
  inversion Hd as [|? ? Hle]; subst. by apply Hle.
Qed.

(** ** Scatter sample *)

Lemma omap_lookup_seq {A} (pre l : list A) :
  omap (λ i, (pre ++ l) !! i) (seq (length pre) (length l)) = l.
Proof.
  revert pre. induction l as [|x l IH]; intros pre; [done|].
  cbn [length seq omap list_omap]. rewrite list_lookup_middle by done.
  f_equal. specialize (IH (pre ++ [x])).
  rewrite <- app_assoc, length_app in IH. cbn [app length] in IH.
  by rewrite Nat.add_1_r in IH.
Qed.

Lemma length_omap_lookup {A} (l : list A) (locs : list nat) :
  (∀ i, i ∈ locs → (i < length l)%nat) →
  length (omap (λ i, l !! i) locs) = length locs.
Proof.
  induction locs as [|i locs IH]; intros Hb; [done|].
  cbn [omap list_omap].
  destruct (lookup_lt_is_Some_2 l i) as [x ->]; [apply Hb; by left|].
  cbn [length]. f_equal. apply IH. intros. apply Hb. by right.
Qed.

Section sampling_correct.
Context {rng : Type}.
Variable RandomState : Z → rng.
Variable permutation : rng → nat → list nat.

(** [permutation(n)] is a rearrangement of the positions 0 to n-1. *)
Hypothesis permutation_Permutation :
  ∀ g n, permutation g n ≡ₚ seq 0 n.

Lemma take_rows_choice df g (n : nat) :
  (n ≤ length (rows df))%nat →
  length (rows (take_rows df (choice permutation g (length (rows df)) n))) = n
  ∧ rows (take_rows df (choice permutation g (length (rows df)) n))
    ⊆+ rows df.
Proof.
  intros Hn. unfold take_rows, choice. cbn [rows].
  set (p := permutation g (length (rows df))).
  assert (p ≡ₚ seq 0 (length (rows df))) as Hp
    by apply permutation_Permutation.
  split.
  - rewrite length_omap_lookup.
    + apply length_take_le. rewrite Hp, length_seq. done.
    + intros i [j [Hj _]]%elem_of_take.
      apply list_elem_of_lookup_2 in Hj. rewrite Hp in Hj.
      apply elem_of_seq in Hj. lia.
  - transitivity (omap (λ i, rows df !! i) p).
    + rewrite <- (take_drop n p) at 2. rewrite omap_app.
      by apply submseteq_inserts_r.
    + rewrite Hp. pose proof (omap_lookup_seq [] (rows df)) as Hall.
      cbn [app length] in Hall. by rewrite Hall.
Qed.

(** C7. The scatter sample has min(5000, number of rows of the filtered
    view) rows, each a row of the view drawn at most once, and it is the
    same sample on every run over the same view: the draw is seeded with
    0 and does not depend on the state of the process-wide generator. *)
Theorem scatter_sample_size_and_determinism f ambient :
  ∃ s, scatter_sample RandomState permutation f ambient = Ok s
       ∧ Z.of_nat (length (rows s)) = Z.min 5000 (Z.of_nat (length (rows f)))
       ∧ rows s ⊆+ rows f
       ∧ ∀ ambient', scatter_sample RandomState permutation f ambient' = Ok s.
Proof.
  unfold scatter_sample, sample.
  set (n := Z.min (Z.of_nat (length (rows f))) 5000).
  assert (0 ≤ n ≤ Z.of_nat (length (rows f))) as Hn by (unfold n; lia).
  assert ((n <? 0) || (Z.of_nat (length (rows f)) <? n) = false) as ->.
  { apply orb_false_iff. split; [apply Z.ltb_ge | apply Z.ltb_ge]; lia. }
  eexists. split; [done|].
  destruct (take_rows_choice f (RandomState 0) (Z.to_nat n)) as [Hlen Hsub];
    [lia|].
  split; [|split; [done|done]].
  rewrite Hlen. unfold n. lia.
Qed.
End sampling_correct.

Lemma reversed_Permutation g n : reversed g n ≡ₚ seq 0 n.
Proof. apply reverse_Permutation. Qed.

Lemma scatter_sample_size_and_determinism_witness :
  ∃ s, scatter_sample seeded reversed sample_df 7 = Ok s
       ∧ Z.of_nat (length (rows s))
         = Z.min 5000 (Z.of_nat (length (rows sample_df)))
       ∧ rows s ⊆+ rows sample_df
       ∧ ∀ ambient', scatter_sample seeded reversed sample_df ambient' = Ok s.
Proof.
  apply scatter_sample_size_and_determinism. apply reversed_Permutation.
Defined.

(** ** Correlation matrix *)

Lemma Qmult_comm_eq (x y : Q) : (x * y)%Q = (y * x)%Q.
Proof. unfold Qmult. f_equal; [apply Z.mul_comm | apply Pos.mul_comm]. Qed.

Lemma complete_pairs_swap xs ys :
  complete_pairs ys xs = prod_swap <$> complete_pairs xs ys.
Proof.
  unfold complete_pairs. revert ys.
  induction xs as [|x xs IH]; intros [|y ys]; try done.
  csimpl. rewrite IH. by destruct x, y.
Qed.

Lemma fst_swap {A B} (ps : list (A * B)) : (prod_swap <$> ps).*1 = ps.*2.
Proof. rewrite <- list_fmap_compose. apply list_fmap_ext. by intros ? []. Qed.

Lemma snd_swap {A B} (ps : list (A * B)) : (prod_swap <$> ps).*2 = ps.*1.
Proof. rewrite <- list_fmap_compose. apply list_fmap_ext. by intros ? []. Qed.

Lemma pearson_swap ps : pearson (prod_swap <$> ps) = pearson ps.
Proof.
  unfold pearson, codeviation. rewrite fst_swap, snd_swap.
  rewrite (Qmult_comm_eq (sq_deviation ps.*2)).
  rewrite <- list_fmap_compose.
  assert (((λ p : Q * Q, ((p.1 - Qmean ps.*2) * (p.2 - Qmean ps.*1))%Q) ∘ prod_swap)
            <$> ps
          = (λ p, ((p.1 - Qmean ps.*1) * (p.2 - Qmean ps.*2))%Q) <$> ps) as ->.
  { apply list_fmap_ext. intros ? [a b] _. simpl. apply Qmult_comm_eq. }
  destruct ps; done.
Qed.

Lemma pearson_symmetric xs ys :
  pearson (complete_pairs xs ys) = pearson (complete_pairs ys xs).
Proof. by rewrite (complete_pairs_swap xs ys), pearson_swap. Qed.

Lemma complete_pairs_diag (xs : list Q) :
  complete_pairs (Some <$> xs) (Some <$> xs) = (λ x, (x, x)) <$> xs.
Proof.
  unfold complete_pairs. induction xs as [|x xs IH]; [done|].
  csimpl. by rewrite IH.
Qed.

Lemma Qsum_squares_nonneg (m : Q) (l : list Q) :
  (0 <= Qsum ((λ x, (x - m) * (x - m)) <$> l))%Q.
Proof.
  induction l as [|x l IH]; [apply Qle_refl|]. csimpl.
  rewrite <- (Qplus_0_r 0). apply Qplus_le_compat; [|done].
  destruct (x - m)%Q as [n d]. unfold Qle, Qmult. simpl.
  rewrite Z.mul_1_r. apply Z.square_nonneg.
Qed.

Lemma sq_deviation_nonneg l : (0 <= sq_deviation l)%Q.
Proof. apply Qsum_squares_nonneg. Qed.

Lemma pearson_diag (xs : list Q) :
  Qeq_bool (sq_deviation xs) 0 = false →
  pearson ((λ x, (x, x)) <$> xs) = Some 1%R.
Proof.
  intros Hv. apply Qeq_bool_neq in Hv.
  unfold pearson, codeviation.
  rewrite <- !list_fmap_compose.
  assert ((fst ∘ (λ x : Q, (x, x))) <$> xs = xs) as -> by apply list_fmap_id.
  assert ((snd ∘ (λ x : Q, (x, x))) <$> xs = xs) as -> by apply list_fmap_id.
  change (Qsum (((λ p : Q * Q, ((p.1 - Qmean xs) * (p.2 - Qmean xs))%Q)
                  ∘ (λ x : Q, (x, x))) <$> xs))
    with (sq_deviation xs).
  set (s := sq_deviation xs) in *.
  rewrite bool_decide_eq_false_2.
  2:{ intros Hnil. apply fmap_nil_inv in Hnil. apply Hv.
      unfold s. by rewrite Hnil. }
  destruct (Qeq_bool (s * s) 0) eqn:Hz.
  { apply Qeq_bool_iff in Hz.
    assert (s == 0)%Q as Hs.
    { destruct s as [n d]. unfold Qeq, Qmult in *. simpl in *. nia. }
    by destruct Hv. }
  f_equal. rewrite Q2R_mult.
  assert (0 <= Q2R s)%R as Hpos.
  { replace 0%R with (Q2R 0) by (unfold Q2R; simpl; lra).
    apply Qle_Rle, sq_deviation_nonneg. }
  rewrite sqrt_square by done. apply Rdiv_diag.
  intros H0. apply Hv. apply eqR_Qeq. rewrite H0. unfold Q2R. simpl. lra.
Qed.

Lemma float_cells_numbers (l : list value) :
  Forall (λ v, Is_true (is_number v)) l →
  mapM float_cell l = Ok (Some <$> omap as_number l).
Proof.
  induction 1 as [|v l Hv _ IH]; [done|].
  cbn [mapM]. destruct v; try done; cbn [float_cell mbind result_bind];
    rewrite IH; done.
Qed.

Lemma annotated_numeric df c :
  annotated df → c ∈ numeric_cols →
  c ∈ columns df ∧ ∀ r, r ∈ rows df → is_number (cell c r).
Proof.
  intros Ha Hc.
  destruct (decide (c ∈ float_cols)) as [Hf|Hf];
    [by apply annotated_number|].
  assert (c ∈ int_cols) as Hi
    by (unfold numeric_cols, float_cols, int_cols in *; set_solver).
  destruct (annotated_int df c Ha Hi) as [? Hr]. split; [done|].
  intros r Hin. by destruct (Hr r Hin) as [z ->].
Qed.

Lemma numeric_column_numbers df c :
  annotated df → c ∈ numeric_cols →
  numeric_column df c = Ok (Some <$> column_numbers df c).
Proof.
  intros Ha Hc. destruct (annotated_numeric df c Ha Hc) as [Hin Hr].
  unfold numeric_column, column_numbers. rewrite getitem_in by done.
  cbn [mbind result_bind]. apply float_cells_numbers.
  apply Forall_forall. intros v (r & -> & ?)%list_elem_of_fmap. by apply Hr.
Qed.

Lemma mapM_fmap {A B} (g : A → result B) (h : A → B) (l : list A) :
  (∀ a, a ∈ l → g a = Ok (h a)) → mapM g l = Ok (h <$> l).
Proof.
  induction l as [|a l IH]; intros Hg; [done|].
  cbn [mapM]. rewrite Hg by by left. cbn [mbind result_bind].
  rewrite IH by (intros; apply Hg; by right). done.
Qed.

Lemma entry_pairwise {A B} (g : A → A → B) (data : list A) i j :
  entry ((λ xs, (λ ys, g xs ys) <$> data) <$> data) i j
  = xs ← data !! i; ys ← data !! j; Some (g xs ys).
Proof.
  unfold entry. rewrite list_lookup_fmap.
  destruct (data !! i) as [xs|]; [|done]. cbn [fmap option_fmap option_map mbind option_bind].
  rewrite list_lookup_fmap. by destruct (data !! j).
Qed.

(** C8. On a view that has rows and whose seven numeric columns all vary,
    the correlation matrix over those columns is a 7 by 7 matrix that
    equals its transpose and has 1 in every diagonal entry. *)
Theorem corr_symmetric_with_unit_diagonal f :
  annotated f → rows f ≠ [] → Forall (varies f) numeric_cols →
  ∃ M, corr f numeric_cols = Ok M
       ∧ length M = 7%nat
       ∧ Forall (λ row, length row = 7%nat) M
       ∧ (∀ i j, entry M i j = entry M j i)
       ∧ ∀ i, (i < 7)%nat → entry M i i = Some (Some 1%R).
Proof.
  intros Ha _ Hvar. unfold corr.
  rewrite (mapM_fmap _ (λ c, Some <$> column_numbers f c))
    by (intros; by apply numeric_column_numbers).
  cbn [mbind result_bind]. eexists. split; [done|].
  set (data := (λ c, Some <$> column_numbers f c) <$> numeric_cols).
  split_and!.
  - by rewrite !length_fmap.
  - apply Forall_fmap, Forall_forall. intros xs _. unfold compose, data.
    by rewrite !length_fmap.
  - intros i j. rewrite !entry_pairwise.
    destruct (data !! i) as [xs|], (data !! j) as [ys|]; try done.
    simpl. by rewrite pearson_symmetric.
  - intros i Hi. rewrite entry_pairwise. unfold data.
    rewrite list_lookup_fmap.
    destruct (lookup_lt_is_Some_2 numeric_cols i) as [c Hc]; [done|].
    rewrite Hc. simpl. rewrite complete_pairs_diag, pearson_diag; [done|].
    rewrite Forall_forall in Hvar. apply Hvar.
    by eapply list_elem_of_lookup_2.
Qed.

Lemma corr_symmetric_with_unit_diagonal_witness :
  ∃ M, corr sample_df numeric_cols = Ok M
       ∧ length M = 7%nat
       ∧ Forall (λ row, length row = 7%nat) M
       ∧ (∀ i j, entry M i j = entry M j i)
       ∧ ∀ i, (i < 7)%nat → entry M i i = Some (Some 1%R).
Proof.
  apply corr_symmetric_with_unit_diagonal.
  - by vm_compute.
  - decide_closed.
  - unfold numeric_cols.
    repeat (apply Forall_cons_2; [vm_compute; reflexivity|]). constructor.
Defined.

(** ** The loader, row by row *)

Lemma assign_column df c c' f s s' :
  getitem df c' = Ok s → mapM f s = Ok s' →
  mapM (assign c c' f) (rows df) = Ok (rows (setitem df c s')).
Proof.
  intros [_ ->]%getitem_Ok Hs%mapM_Ok. apply mapM_Ok. cbn [setitem rows].
  revert s' Hs. induction (rows df) as [|r l IH]; intros s' Hs.
  - inversion Hs. constructor.
  - rewrite fmap_cons in Hs. inversion Hs as [|? v' ? k Hv Hk]; subst.
    cbn [zip_with]. constructor; [|by apply IH].
    unfold assign. by rewrite Hv.
Qed.

Lemma assign_column_total df c c' (g : value → value) s :
  getitem df c' = Ok s →
  mapM (assign c c' (λ v, Ok (g v))) (rows df)
  = Ok (rows (setitem df c (g <$> s))).
Proof.
  intros Hs. apply (assign_column df c c' _ s); [done|].
  by apply mapM_fmap.
Qed.

Lemma mapM_compose {A B C} (g : A → result B) (g' : B → result C) l l' l'' :
  mapM g l = Ok l' → mapM g' l' = Ok l'' →
  mapM (λ a, g a ≫= g') l = Ok l''.
Proof.
  rewrite !mapM_Ok. intros H. revert l''.
  induction H as [|a b l l' Hab _ IH]; intros l'' H'.
  - inversion H'. constructor.
  - inversion H' as [|? c ? k Hbc Hk]; subst. constructor; [|by apply IH].
    by rewrite Hab.
Qed.

Lemma load_data_rowwise fs df :
  load_data fs = Ok df →
  ∃ df0, read_csv fs "train.csv" = Ok df0
         ∧ mapM annotate_row (rows df0) = Ok (rows df).
Proof.
  unfold load_data. intros H. invert_binds H.
  cbv zeta in H. injection H as <-.
  eexists. split; [done|].
  repeat match goal with
  | Hg : getitem ?d ?c' = Ok ?s, Hm : to_datetime ?s = Ok ?s' |- _ =>
      pose proof (assign_column d "datetime" c' _ s s' Hg Hm);
      clear Hm
  | Hg : getitem ?d ?c' = Ok ?s, Hm : dt ?f ?s = Ok ?s' |- _ =>
      match goal with
      | |- context [setitem d ?c s'] =>
          pose proof (assign_column d c c' _ s s' Hg Hm); clear Hm
      end
  end.
  repeat match goal with
  | Hg : getitem ?d ?c' = Ok ?s |- context [setitem ?d ?c (series_map ?m ?s)] =>
      pose proof (assign_column_total d c c' (series_map1 m) s Hg);
      clear Hg
  | Hg : getitem ?d ?c' = Ok ?s |- context [setitem ?d ?c (series_apply ?g ?s)] =>
      pose proof (assign_column_total d c c' (λ v, VStr (g v)) s Hg);
      clear Hg
  end.
  unfold annotate_row.
  repeat (eapply mapM_compose; [eassumption|]).
  eassumption.
Qed.

(** ** A well-formed train.csv loads into an annotated table *)

Lemma annotated_intro df :
  int_cols ++ float_cols ++ str_cols ⊆ columns df →
  (∀ r, r ∈ rows df → row_typed r) → annotated df.
Proof.
  intros Hc Hr. unfold annotated. rewrite !andb_True, !forallb_True.
  split_and!; apply Forall_forall; intros c Hin; unfold typed;
    (apply andb_True; split;
     [apply bool_decide_pack, Hc; set_solver
     |apply forallb_True, Forall_forall; intros r Hrin;
      destruct (Hr r Hrin) as (Hi & Hf & Hs);
      rewrite Forall_forall in Hi, Hf, Hs; auto]).
Qed.

Lemma season_name_str z :
  1 ≤ z ≤ 4 → is_str (series_map1 season_map (VInt z)).
Proof.
  intros Hz. assert (z = 1 ∨ z = 2 ∨ z = 3 ∨ z = 4) as Hc by lia.
  by destruct Hc as [->|[->|[->| ->]]].
Qed.

Lemma day_name_str t : is_str (series_map1 dow_map (VInt (ts_dayofweek t))).
Proof.
  unfold ts_dayofweek.
  set (d := days_from_civil (ts_year t) (ts_month t) (ts_day t) + 3).
  pose proof (Z.mod_pos_bound d 7 ltac:(lia)) as Hb.
  assert (d mod 7 = 0 ∨ d mod 7 = 1 ∨ d mod 7 = 2 ∨ d mod 7 = 3
          ∨ d mod 7 = 4 ∨ d mod 7 = 5 ∨ d mod 7 = 6) as Hc by lia.
  by destruct Hc as [->|[->|[->|[->|[->|[->| ->]]]]]].
Qed.

Ltac cells :=
  repeat (rewrite cell_insert_eq || rewrite cell_insert_ne by done).

Lemma annotate_row_typed r0 r :
  raw_record r0 → annotate_row r0 = Ok r →
  row_typed (<["total" := cell "count" r]> r).
Proof.
  intros ((s & Hs & [t Ht]) & (z & Hz & Hrange) & Hi & Hf).
  unfold annotate_row, assign. rewrite Hs. cbn [to_datetime1].
  rewrite Ht. cbn [mbind result_bind]. cells. cbn [dt1 mbind result_bind].
  cells. cbn [dt1 mbind result_bind]. cells. cbn [dt1 mbind result_bind].
  cells. cbn [dt1 mbind result_bind]. cells. rewrite Hz.
  intros [= <-].
  apply Forall_cons in Hi as [Hw Hi]. apply Forall_cons in Hi as [Hca Hi].
  apply Forall_cons in Hi as [Hre Hi]. apply Forall_cons in Hi as [Hco _].
  apply Forall_cons in Hf as [Hte Hf]. apply Forall_cons in Hf as [Hat Hf].
  apply Forall_cons in Hf as [Hhu Hf]. apply Forall_cons in Hf as [Hwi _].
  unfold row_typed, int_cols, float_cols, str_cols.
  split_and!; repeat constructor; cells; try done.
  - by apply season_name_str.
  - apply day_name_str.
Qed.

Lemma setitem_copy df c c' :
  rows (setitem df c (cell c' <$> rows df))
  = (λ r, <[c := cell c' r]> r) <$> rows df.
Proof.
  rewrite <- (list_fmap_id (cell c' <$> rows df)) at 1.
  apply (setitem_cells df c c' (λ v, v)).
Qed.

(** X14. A train.csv that has the columns of the dataset, typed as
    [read_csv] types them and with timestamps in the dataset's layout,
    passes the start-up: the page set-up, the title and the introduction
    are drawn, nothing is raised, and the table handed to the sidebar is
    an annotated table. *)
Theorem well_formed_csv_is_annotated fs h rs out :
  fs !! "train.csv" = Some (Csv h rs) →
  required_cols ⊆ h →
  Forall raw_record rs →
  ∃ df, startup fs out = (out ++ banner, Ok df) ∧ annotated df.
Proof.
  intros Hfs Hcols Hrs.
  assert (read_csv fs "train.csv" = Ok {| columns := h; rows := rs |})
    as Hread by by apply read_csv_Ok.
  destruct (mapM_total to_datetime1 (cell "datetime" <$> rs)) as [t Ht].
  { intros v (r & -> & Hr)%list_elem_of_fmap.
    rewrite Forall_forall in Hrs.
    destruct (Hrs r Hr) as ((s & -> & [ts Hts]) & _). simpl.
    rewrite Hts. eauto. }
  pose proof (load_data_after_parse fs _ t Hread) as Hload.
  cbn [columns rows] in Hload.
  rewrite bool_decide_eq_true_2 in Hload
    by (apply Hcols; unfold required_cols; set_solver).
  destruct Hload as [df8 Hdf8];
    [apply Hcols; unfold required_cols; set_solver | done |].
  destruct (load_data_columns _ _ Hdf8) as (df0 & Hread0 & Hc8).
  destruct (load_data_rowwise _ _ Hdf8) as (df0' & Hread0' & Hrows).
  rewrite Hread in Hread0, Hread0'.
  injection Hread0 as <-. injection Hread0' as <-. cbn [columns rows] in *.
  assert ("count" ∈ columns df8) as Hcount.
  { apply Hc8. left. apply Hcols. unfold required_cols. set_solver. }
  rewrite startup_run, Hdf8. cbn [mbind result_bind].
  rewrite (getitem_in _ _ Hcount). cbn [mbind result_bind].
  eexists. split; [done|]. apply annotated_intro.
  - intros c Hc. apply columns_setitem.
    destruct (decide (c = "total")) as [->|Hne]; [by right|left].
    apply Hc8.
    destruct (decide (c ∈ derived_cols)) as [?|Hnd]; [by right|left].
    apply Hcols.
    unfold int_cols, float_cols, str_cols, derived_cols, required_cols in *.
    set_solver.
  - intros r Hr.
    rewrite setitem_copy in Hr.
    apply list_elem_of_fmap in Hr as (r8 & -> & Hr8).
    apply mapM_Ok in Hrows.
    apply list_elem_of_lookup in Hr8 as [i Hi].
    destruct (Forall2_lookup_r _ _ _ _ _ Hrows Hi) as (r0 & Hi0 & Hann).
    apply (annotate_row_typed r0); [|done].
    rewrite Forall_forall in Hrs. apply Hrs.
    by eapply list_elem_of_lookup_2.
Qed.

Lemma raw_sample_record ts season workingday temp humidity casual registered :
  is_Some (parse_timestamp ts) → 1 ≤ season ≤ 4 →
  raw_record
    (sample_record ts season workingday temp humidity casual registered).
Proof.
  intros Hts Hseason. unfold raw_record. split_and!.
  - exists ts. split; [reflexivity | done].
  - exists season. split; [reflexivity | done].
  - decide_closed.
  - decide_closed.
Qed.

Lemma raw_sample_csv : Forall raw_record sample_csv.
Proof.
  unfold sample_csv.
  repeat (apply Forall_cons_2;
          [apply raw_sample_record; [by eexists | lia]|]).
  constructor.
Qed.

Lemma well_formed_csv_is_annotated_witness :
  ∃ df, startup sample_fs [] = ([] ++ banner, Ok df) ∧ annotated df.
Proof.
  apply (well_formed_csv_is_annotated sample_fs csv_header sample_csv).
  - reflexivity.
  - intros c Hc. revert c Hc. apply Forall_forall. decide_closed.
  - apply raw_sample_csv.
Defined.

(** * Further properties *)

(** ** The filter: failures, invariants, composition *)

Lemma annotated_sub df f :
  annotated df → columns f = columns df → rows f ⊆ rows df → annotated f.
Proof.
  unfold annotated. rewrite !andb_True, !forallb_True, !Forall_forall.
  intros [[Hi Hn] Hs] Hc Hr.
  assert (∀ p c, typed p df c → typed p f c) as Hsub.
  { intros p c [Hin Hall]%typed_elim. unfold typed. apply andb_True. split.
    - apply bool_decide_pack. by rewrite Hc.
    - apply forallb_True, Forall_forall. intros r Hrin. by apply Hall, Hr. }
  split_and!; intros c Hin; apply Hsub; auto.
Qed.

(** X1. The filter raises exactly when a column it reads is absent, and
    it reads the working-day column only when the choice is not All: an
    absent year column gives KeyError year, then an absent season_name
    column KeyError season_name, then, unless the choice is All, an
    absent workingday column KeyError workingday; with the choice All a
    table without the workingday column is filtered without an
    exception, and so is, with any choice, a table that has the three
    columns. *)
Theorem filter_raises_on_absent_column df ys ss w :
  ("year" ∉ columns df → filtered df ys ss w = Raise (KeyError "year"))
  ∧ ("year" ∈ columns df → "season_name" ∉ columns df →
       filtered df ys ss w = Raise (KeyError "season_name"))
  ∧ ("year" ∈ columns df → "season_name" ∈ columns df →
       "workingday" ∉ columns df → w ≠ All →
       filtered df ys ss w = Raise (KeyError "workingday"))
  ∧ ("year" ∈ columns df → "season_name" ∈ columns df →
       "workingday" ∉ columns df →
       ∃ f, filtered df ys ss All = Ok f)
  ∧ ("year" ∈ columns df → "season_name" ∈ columns df →
       "workingday" ∈ columns df →
       ∃ f, filtered df ys ss w = Ok f).
Proof.
  split_and!.
  - intros Hy. unfold filtered.
    assert (getitem df "year" = Raise (KeyError "year")) as ->
      by by apply getitem_Raise.
    done.
  - intros Hy Hs. unfold filtered. rewrite getitem_in by done.
    cbn [mbind result_bind]. cbv zeta.
    match goal with
    | |- context [getitem ?d "season_name"] =>
        assert (getitem d "season_name" = Raise (KeyError "season_name"))
          as -> by by apply getitem_Raise
    end.
    done.
  - intros Hy Hs Hw Hall. unfold filtered. rewrite getitem_in by done.
    cbn [mbind result_bind]. cbv zeta. rewrite getitem_in by done.
    cbn [mbind result_bind].
    destruct w; [done| |];
      match goal with
      | |- context [getitem ?d "workingday"] =>
          assert (getitem d "workingday" = Raise (KeyError "workingday"))
            as -> by by apply getitem_Raise
      end; done.
  - intros Hy Hs _. eexists. by apply filtered_intro.
  - intros Hy Hs Hw. eexists. by apply filtered_intro.
Qed.

Lemma filter_raises_on_absent_column_witness :
  filtered {| columns := []; rows := [] |} [] [] All
  = Raise (KeyError "year").
Proof.
  destruct (filter_raises_on_absent_column
              {| columns := []; rows := [] |} [] [] All) as (Hyear & _).
  apply Hyear. cbn [columns]. apply not_elem_of_nil.
Defined.

(** X2. A filtered view of an annotated table is an annotated table: the
    filter keeps the columns and the kinds of their cells. *)
Theorem filtered_view_is_annotated df ys ss w f :
  annotated df → filtered df ys ss w = Ok f → annotated f.
Proof.
  intros Ha [Hc Hr]%filtered_rows. apply (annotated_sub df); [done..|].
  intros r. rewrite Hr, list_elem_of_filter. tauto.
Qed.

Lemma filtered_view_is_annotated_witness :
  annotated
    {| columns := columns sample_df;
       rows := filter (λ r, Is_true (passes [VInt 2011] [VStr "spring"] All r))
                 (rows sample_df) |}.
Proof.
  apply (filtered_view_is_annotated sample_df [VInt 2011] [VStr "spring"] All);
    [by vm_compute | reflexivity].
Defined.

(** X3. Two filters commute: filtering by one triple of selections and
    then by another gives the same view as filtering in the other
    order. *)
Theorem filters_commute df ys1 ss1 w1 ys2 ss2 w2 f1 g :
  filtered df ys1 ss1 w1 = Ok f1 → filtered f1 ys2 ss2 w2 = Ok g →
  ∃ f2, filtered df ys2 ss2 w2 = Ok f2 ∧ filtered f2 ys1 ss1 w1 = Ok g.
Proof.
  intros H1 H2.
  destruct (filtered_inv _ _ _ _ _ H1) as (Hy & Hs & Hw1).
  destruct (filtered_rows _ _ _ _ _ H1) as [Hc1 Hr1].
  destruct (filtered_inv _ _ _ _ _ H2) as (_ & _ & Hw2).
  destruct (filtered_rows _ _ _ _ _ H2) as [Hc2 Hr2].
  rewrite Hc1 in Hw2.
  eexists. split; [by apply filtered_intro|].
  rewrite filtered_intro by done. cbn [columns rows].
  destruct g as [cs rs]. cbn [columns rows] in *. f_equal. f_equal.
  - congruence.
  - rewrite Hr2, Hr1, !list_filter_filter. apply list_filter_iff. tauto.
Qed.

Lemma filters_commute_witness :
  ∃ f2, filtered sample_df [VInt 2011; VInt 2012] [VStr "spring"] Working_days
          = Ok f2
        ∧ filtered f2 [VInt 2012] [VStr "spring"; VStr "fall"] All
          = Ok {| columns := columns sample_df;
                  rows := filter
                    (λ r, Is_true (passes [VInt 2012] [VStr "spring"]
                                     Working_days r))
                    (rows sample_df) |}.
Proof.
  apply (filters_commute sample_df [VInt 2012] [VStr "spring"; VStr "fall"] All
           [VInt 2011; VInt 2012] [VStr "spring"] Working_days
           {| columns := columns sample_df;
              rows := filter
                (λ r, Is_true (passes [VInt 2012] [VStr "spring"; VStr "fall"]
                                 All r))
                (rows sample_df) |});
    reflexivity.
Defined.

Lemma filter_split {A} (P Q : A → Prop) `{!∀ x, Decision (P x)}
    `{!∀ x, Decision (Q x)} (l : list A) :
  filter P l ≡ₚ filter (λ x, P x ∧ Q x) l ++ filter (λ x, P x ∧ ¬ Q x) l.
Proof.
  induction l as [|x l IH]; [done|]. rewrite !filter_cons.
  destruct (decide (P x)) as [HP|HP], (decide (Q x)) as [HQ|HQ].
  - rewrite decide_True, decide_False by tauto. simpl. by rewrite IH.
  - rewrite decide_False, decide_True by tauto.
    rewrite <- Permutation_middle. by rewrite IH.
  - rewrite !decide_False by tauto. done.
  - rewrite !decide_False by tauto. done.
Qed.

Lemma passes_flag ys ss w r :
  Is_true (passes ys ss w r)
  ↔ Is_true (passes ys ss All r)
    ∧ match w with
      | All => True
      | Working_days => Is_true (value_eqb (cell "workingday" r) (VInt 1))
      | Non_working_days => Is_true (value_eqb (cell "workingday" r) (VInt 0))
      end.
Proof.
  unfold passes. rewrite !andb_True. destruct w; simpl; tauto.
Qed.

Lemma working_days_partition df ys ss fa :
  filtered df ys ss All = Ok fa → "workingday" ∈ columns df →
  (∀ r, r ∈ rows fa →
        cell "workingday" r = VInt 0 ∨ cell "workingday" r = VInt 1) →
  ∃ fw fn,
    filtered df ys ss Working_days = Ok fw
    ∧ filtered df ys ss Non_working_days = Ok fn
    ∧ rows fa ≡ₚ rows fw ++ rows fn
    ∧ ∀ r, r ∈ rows fw → r ∉ rows fn.
Proof.
  intros Ha Hw Hflag.
  destruct (filtered_inv _ _ _ _ _ Ha) as (Hy & Hs & _).
  destruct (filtered_rows _ _ _ _ _ Ha) as [_ Hra].
  do 2 eexists. split; [by apply filtered_intro|].
  split; [by apply filtered_intro|]. cbn [rows].
  assert (rows fa ≡ₚ
            filter (λ r, Is_true (passes ys ss Working_days r)) (rows df)
            ++ filter (λ r, Is_true (passes ys ss Non_working_days r)) (rows df))
    as Hperm.
  { rewrite Hra.
    rewrite (filter_split _
               (λ r, Is_true (value_eqb (cell "workingday" r) (VInt 1)))).
    f_equiv.
    - apply reflexive_eq, filter_ext_in. intros r _.
      by rewrite (passes_flag _ _ Working_days).
    - apply reflexive_eq, filter_ext_in. intros r Hr.
      rewrite (passes_flag _ _ Non_working_days). split.
      + intros [Hp Hn]. split; [done|].
        assert (r ∈ rows fa) as Hin
          by (rewrite Hra; by apply list_elem_of_filter).
        destruct (Hflag r Hin) as [Hz|Hz]; rewrite Hz in Hn |- *; [done|].
        destruct Hn. by apply value_eqb_int.
      + intros [Hp H0]. split; [done|]. intros H1.
        assert (r ∈ rows fa) as Hin
          by (rewrite Hra; by apply list_elem_of_filter).
        destruct (Hflag r Hin) as [Hz|Hz]; rewrite Hz in H0, H1.
        * apply value_eqb_int in H1. congruence.
        * apply value_eqb_int in H0. congruence. }
  split; [done|].
  intros r [H1 _]%list_elem_of_filter [H0 _]%list_elem_of_filter.
  apply passes_flag in H1 as [_ H1], H0 as [_ H0].
  destruct (cell "workingday" r) as [z|q| | |]; try done.
  - apply value_eqb_int in H0, H1. congruence.
  - unfold value_eqb in H0, H1. cbn [as_number] in H0, H1.
    apply Is_true_true, Qeq_bool_iff in H0.
    apply Is_true_true, Qeq_bool_iff in H1.
    rewrite H1 in H0. done.
Qed.

(** X4. When every working-day flag in the view is 0 or 1, the views for
    Working days and for Non-working days split the view for All: its
    rows are those of the two views together, each row in exactly one of
    them. *)
Theorem working_days_split_the_view df ys ss fa :
  filtered df ys ss All = Ok fa → "workingday" ∈ columns df →
  (∀ r, r ∈ rows fa →
        cell "workingday" r = VInt 0 ∨ cell "workingday" r = VInt 1) →
  ∃ fw fn,
    filtered df ys ss Working_days = Ok fw
    ∧ filtered df ys ss Non_working_days = Ok fn
    ∧ rows fa ≡ₚ rows fw ++ rows fn
    ∧ (length (rows fa) = length (rows fw) + length (rows fn))%nat
    ∧ ∀ r, r ∈ rows fw → r ∉ rows fn.
Proof.
  intros Ha Hw Hflag.
  destruct (working_days_partition df ys ss fa Ha Hw Hflag)
    as (fw & fn & Hfw & Hfn & Hperm & Hdisj).
  exists fw, fn. split_and!; try done. by rewrite Hperm, length_app.
Qed.

Lemma working_days_split_the_view_witness :
  ∃ fw fn,
    filtered sample_df [VInt 2011; VInt 2012] [VStr "spring"] Working_days
    = Ok fw
    ∧ filtered sample_df [VInt 2011; VInt 2012] [VStr "spring"]
        Non_working_days = Ok fn
    ∧ filter (λ r, Is_true (passes [VInt 2011; VInt 2012] [VStr "spring"] All r))
        (rows sample_df)
      ≡ₚ rows fw ++ rows fn
    ∧ (length (filter (λ r, Is_true (passes [VInt 2011; VInt 2012]
                                       [VStr "spring"] All r))
                 (rows sample_df))
       = length (rows fw) + length (rows fn))%nat
    ∧ ∀ r, r ∈ rows fw → r ∉ rows fn.
Proof.
  apply (working_days_split_the_view sample_df [VInt 2011; VInt 2012]
           [VStr "spring"]
           {| columns := columns sample_df;
              rows := filter
                (λ r, Is_true (passes [VInt 2011; VInt 2012] [VStr "spring"]
                                 All r))
                (rows sample_df) |}).
  - reflexivity.
  - decide_closed.
  - apply Forall_forall. decide_closed.
Defined.

(** ** The loader: what it writes and what it keeps *)

Lemma annotate_row_inv r0 r :
  annotate_row r0 = Ok r →
  ∃ t y m w hh,
    to_datetime1 (cell "datetime" r0) = Ok t
    ∧ dt1 ts_year t = Ok y ∧ dt1 ts_month t = Ok m
    ∧ dt1 ts_dayofweek t = Ok w ∧ dt1 ts_hour t = Ok hh
    ∧ r = <["day_period" := VStr (get_day_period hh)]>
            (<["day_name" := series_map1 dow_map w]>
               (<["season_name" := series_map1 season_map (cell "season" r0)]>
                  (<["hour" := hh]>
                     (<["dayofweek" := w]>
                        (<["month" := m]>
                           (<["year" := y]> (<["datetime" := t]> r0))))))).
Proof.
  unfold annotate_row, assign. intros H.
  apply bind_Ok in H as (r1 & (t & Ht & [= <-])%bind_Ok & H).
  apply bind_Ok in H as (r2 & (y & Hy & [= <-])%bind_Ok & H).
  apply bind_Ok in H as (r3 & (m & Hm & [= <-])%bind_Ok & H).
  apply bind_Ok in H as (r4 & (w & Hw & [= <-])%bind_Ok & H).
  apply bind_Ok in H as (r5 & (hh & Hh & [= <-])%bind_Ok & H).
  apply bind_Ok in H as (r6 & (s & [= <-] & [= <-])%bind_Ok & H).
  apply bind_Ok in H as (r7 & (d & [= <-] & [= <-])%bind_Ok & H).
  apply bind_Ok in H as (p & [= <-] & [= <-]).
  revert Hy Hm Hw Hh. cells. intros Hy Hm Hw Hh.
  exists t, y, m, w, hh. by split_and!.
Qed.

Lemma loaded_row fs h rs df i r :
  fs !! "train.csv" = Some (Csv h rs) → load_data fs = Ok df →
  rows df !! i = Some r →
  ∃ r0, rs !! i = Some r0 ∧ annotate_row r0 = Ok r.
Proof.
  intros Hfs Hload Hi.
  destruct (load_data_rowwise _ _ Hload) as (df0 & Hread & Hrows).
  apply read_csv_Ok in Hread. rewrite Hfs in Hread.
  injection Hread as -> ->. apply mapM_Ok in Hrows.
  by destruct (Forall2_lookup_r _ _ _ _ _ Hrows Hi) as (r0 & ? & ?); eauto.
Qed.



(** X6. In a row the loader returns for a record whose datetime cell is a
    string, the year, month, day of week and hour are those of the
    timestamp the string parses to, the day name is the name of that day
    of the week and is never missing, and the day period is the one of
    that hour. *)
Theorem loader_calendar_columns fs h rs df i r0 r s :
  fs !! "train.csv" = Some (Csv h rs) → load_data fs = Ok df →
  rs !! i = Some r0 → rows df !! i = Some r → cell "datetime" r0 = VStr s →
  ∃ t name,
    parse_timestamp s = Some t
    ∧ cell "datetime" r = VTime t
    ∧ cell "year" r = VInt (ts_year t)
    ∧ cell "month" r = VInt (ts_month t)
    ∧ cell "dayofweek" r = VInt (ts_dayofweek t)
    ∧ cell "hour" r = VInt (ts_hour t)
    ∧ dow_map !! ts_dayofweek t = Some name
    ∧ cell "day_name" r = VStr name
    ∧ cell "day_period" r = VStr (get_day_period (VInt (ts_hour t))).
Proof.
  intros Hfs Hload H0 Hi Hs.
  destruct (loaded_row _ _ _ _ _ _ Hfs Hload Hi) as (r0' & H0' & Hann).
  rewrite H0 in H0'. injection H0' as <-.
  apply annotate_row_inv in Hann
    as (t & y & m & w & hh & Ht & Hy & Hm & Hw & Hh & ->).
  rewrite Hs in Ht. cbn [to_datetime1] in Ht.
  destruct (parse_timestamp s) as [ts|]; [|done]. injection Ht as <-.
  cbn [dt1] in Hy, Hm, Hw, Hh.
  injection Hy as <-. injection Hm as <-. injection Hw as <-.
  injection Hh as <-.
  pose proof (day_name_str ts) as Hname. unfold series_map1 in Hname |- *.
  cbn [as_integer mbind option_bind] in Hname |- *.
  destruct (dow_map !! ts_dayofweek ts) as [name|] eqn:Hd; [|done].
  exists ts, name. split_and!; cells; done.
Qed.

Lemma loader_calendar_columns_witness :
  ∃ t name,
    parse_timestamp "2011-02-05 03:00:00" = Some t
    ∧ cell "datetime" sample_row = VTime t
    ∧ cell "year" sample_row = VInt (ts_year t)
    ∧ cell "month" sample_row = VInt (ts_month t)
    ∧ cell "dayofweek" sample_row = VInt (ts_dayofweek t)
    ∧ cell "hour" sample_row = VInt (ts_hour t)
    ∧ dow_map !! ts_dayofweek t = Some name
    ∧ cell "day_name" sample_row = VStr name
    ∧ cell "day_period" sample_row = VStr (get_day_period (VInt (ts_hour t))).
Proof.
  apply (loader_calendar_columns sample_fs csv_header sample_csv sample_loaded
           0%nat
           (sample_record "2011-02-05 03:00:00" 1 0 (984 # 100) 81 3 13));
    reflexivity.
Defined.

(** X7. A record without a datetime, read as NaT, comes out of the
    loader with year, month, day of week, hour and day name missing, and
    with the day period evening: every comparison of [get_day_period]
    with a missing hour is false, so its last branch is taken. *)
Theorem loader_missing_datetime fs h rs df i r0 r :
  fs !! "train.csv" = Some (Csv h rs) → load_data fs = Ok df →
  rs !! i = Some r0 → rows df !! i = Some r → cell "datetime" r0 = VNaN →
  cell "year" r = VNaN ∧ cell "month" r = VNaN
  ∧ cell "dayofweek" r = VNaN ∧ cell "hour" r = VNaN
  ∧ cell "day_name" r = VNaN
  ∧ cell "day_period" r = VStr "evening".
Proof.
  intros Hfs Hload H0 Hi Hs.
  destruct (loaded_row _ _ _ _ _ _ Hfs Hload Hi) as (r0' & H0' & Hann).
  rewrite H0 in H0'. injection H0' as <-.
  apply annotate_row_inv in Hann
    as (t & y & m & w & hh & Ht & Hy & Hm & Hw & Hh & ->).
  rewrite Hs in Ht. injection Ht as <-.
  injection Hy as <-. injection Hm as <-. injection Hw as <-.
  injection Hh as <-.
  split_and!; cells; done.
Qed.

Lemma loader_missing_datetime_witness :
  cell "year" nat_row = VNaN ∧ cell "month" nat_row = VNaN
  ∧ cell "dayofweek" nat_row = VNaN ∧ cell "hour" nat_row = VNaN
  ∧ cell "day_name" nat_row = VNaN
  ∧ cell "day_period" nat_row = VStr "evening".
Proof.
  apply (loader_missing_datetime nat_fs no_count_header [nat_record]
           {| columns := no_count_header ++ derived_cols; rows := [nat_row] |}
           0%nat nat_record);
    reflexivity.
Defined.

(** X8. In a row the loader returns, the season name is spring, summer,
    fall or winter for the season codes 1, 2, 3 and 4, and is missing for
    every other code. *)
Theorem loader_season_name fs h rs df i r0 r z :
  fs !! "train.csv" = Some (Csv h rs) → load_data fs = Ok df →
  rs !! i = Some r0 → rows df !! i = Some r → cell "season" r0 = VInt z →
  (z = 1 → cell "season_name" r = VStr "spring")
  ∧ (z = 2 → cell "season_name" r = VStr "summer")
  ∧ (z = 3 → cell "season_name" r = VStr "fall")
  ∧ (z = 4 → cell "season_name" r = VStr "winter")
  ∧ (¬ 1 ≤ z ≤ 4 → cell "season_name" r = VNaN).
Proof.
  intros Hfs Hload H0 Hi Hs.
  destruct (loaded_row _ _ _ _ _ _ Hfs Hload Hi) as (r0' & H0' & Hann).
  rewrite H0 in H0'. injection H0' as <-.
  apply annotate_row_inv in Hann
    as (t & y & m & w & hh & _ & _ & _ & _ & _ & ->).
  cells. rewrite Hs. unfold series_map1. cbn [as_integer mbind option_bind].
  split_and!; try (intros ->; done).
  intros Hz. unfold season_map.
  rewrite !lookup_insert_ne by lia. by rewrite lookup_singleton_ne by lia.
Qed.

Lemma loader_season_name_witness :
  (3 = 1 → cell "season_name" fall_row = VStr "spring")
  ∧ (3 = 2 → cell "season_name" fall_row = VStr "summer")
  ∧ (3 = 3 → cell "season_name" fall_row = VStr "fall")
  ∧ (3 = 4 → cell "season_name" fall_row = VStr "winter")
  ∧ (¬ 1 ≤ 3 ≤ 4 → cell "season_name" fall_row = VNaN).
Proof.
  apply (loader_season_name sample_fs csv_header sample_csv sample_loaded
           3%nat
           (sample_record "2012-07-02 19:00:00" 3 1 (3034 # 100) 55 40 210));
    reflexivity.
Defined.

(** X9. [get_day_period] never fails and sends every hour outside 0 to
    17 to evening: the hours 18 to 23, but also a negative hour, an hour
    of 24 or more and a missing hour. *)
Theorem day_period_evening_is_the_default h :
  (get_day_period (VInt h) = "evening" ↔ h < 0 ∨ 18 ≤ h)
  ∧ get_day_period VNaN = "evening".
Proof.
  split; [|done]. rewrite get_day_period_int.
  destruct (Z.leb_spec 0 h), (Z.ltb_spec h 6), (Z.leb_spec 6 h),
    (Z.ltb_spec h 12), (Z.leb_spec 12 h), (Z.ltb_spec h 18);
    cbn [andb]; split; (done || lia).
Qed.

(** ** The KPI block *)

Lemma wrap_int64_fits z : fits_int64 z → wrap_int64 z = z.
Proof.
  unfold fits_int64, wrap_int64. intros Hz.
  rewrite Z.mod_small by lia. lia.
Qed.

Lemma wrap_int64_range z : fits_int64 (wrap_int64 z).
Proof.
  unfold fits_int64, wrap_int64.
  pose proof (Z.mod_pos_bound (z + 2 ^ 63) (2 ^ 64) ltac:(lia)). lia.
Qed.

Lemma wrap_int64_add_l a b : wrap_int64 (wrap_int64 a + b) = wrap_int64 (a + b).
Proof.
  unfold wrap_int64. f_equal.
  replace ((a + 2 ^ 63) mod 2 ^ 64 - 2 ^ 63 + b + 2 ^ 63)
    with ((a + 2 ^ 63) mod 2 ^ 64 + b) by lia.
  rewrite Zplus_mod_idemp_l. f_equal. lia.
Qed.

Lemma wrap_int64_add a b :
  wrap_int64 (wrap_int64 a + wrap_int64 b) = wrap_int64 (a + b).
Proof.
  rewrite wrap_int64_add_l, (Z.add_comm a), wrap_int64_add_l. f_equal. lia.
Qed.

Lemma sum_from_ints a zs :
  fits_int64 a →
  sum_from (VInt a) (VInt <$> zs) = Ok (VInt (wrap_int64 (a + Zsum zs))).
Proof.
  revert a. induction zs as [|z zs IH]; intros a Ha; csimpl.
  - by rewrite Z.add_0_r, wrap_int64_fits.
  - rewrite IH by apply wrap_int64_range.
    by rewrite wrap_int64_add_l, Z.add_assoc.
Qed.

Lemma series_sum_ints zs :
  series_sum (VInt <$> zs) = Ok (VInt (wrap_int64 (Zsum zs))).
Proof.
  unfold series_sum. rewrite sum_from_ints; [done|].
  unfold fits_int64. lia.
Qed.

Lemma kpis_value f :
  annotated f →
  kpis f
  = Ok {| total_rentals := wrap_int64 (Zsum (int_column f "count"));
          mean_hourly_rentals :=
            if decide (rows f = []) then VNaN
            else VFloat (inject_Z (Zsum (int_column f "count"))
                         / inject_Z (Z.of_nat (length (rows f))));
          registered_rentals := wrap_int64 (Zsum (int_column f "registered"));
          casual_rentals := wrap_int64 (Zsum (int_column f "casual")) |}.
Proof.
  intros Ha.
  destruct (annotated_int f "count" Ha) as [Hc _];
    [unfold int_cols; set_solver|].
  destruct (annotated_int f "registered" Ha) as [Hg _];
    [unfold int_cols; set_solver|].
  destruct (annotated_int f "casual" Ha) as [Hl _];
    [unfold int_cols; set_solver|].
  unfold kpis. rewrite !getitem_in by done. cbn [mbind result_bind].
  rewrite !(int_column_cells f _ (rows f) Ha)
    by (done || unfold int_cols; set_solver).
  fold (int_column f "count") (int_column f "registered")
    (int_column f "casual").
  rewrite !series_sum_ints. cbn [mbind result_bind py_int].
  destruct (decide (rows f = [])) as [Hnil|Hne].
  - unfold int_column. rewrite Hnil. done.
  - rewrite series_mean_ints
      by (unfold int_column; intros ?%fmap_nil_inv; done).
    cbn [mbind result_bind]. do 3 f_equal. unfold int_column.
    by rewrite length_fmap.
Qed.

(** X11. On an annotated view the KPI block never raises.  The three
    totals are the sums of the columns count, registered and casual taken
    in int64, so wrapped to 64 bits, and they are the sums themselves when
    these fit; the mean is the sum of count over the number of rows, or
    NaN when the view has no row. *)
Theorem kpis_are_sums_and_mean f :
  annotated f →
  ∃ k, kpis f = Ok k
    ∧ total_rentals k = wrap_int64 (Zsum (int_column f "count"))
    ∧ registered_rentals k = wrap_int64 (Zsum (int_column f "registered"))
    ∧ casual_rentals k = wrap_int64 (Zsum (int_column f "casual"))
    ∧ (fits_int64 (Zsum (int_column f "count")) →
       total_rentals k = Zsum (int_column f "count"))
    ∧ (fits_int64 (Zsum (int_column f "registered")) →
       registered_rentals k = Zsum (int_column f "registered"))
    ∧ (fits_int64 (Zsum (int_column f "casual")) →
       casual_rentals k = Zsum (int_column f "casual"))
    ∧ mean_hourly_rentals k
      = if decide (rows f = []) then VNaN
        else VFloat (inject_Z (Zsum (int_column f "count"))
                     / inject_Z (Z.of_nat (length (rows f)))).
Proof.
  intros Ha. eexists. split; [by apply kpis_value|].
  cbn [total_rentals registered_rentals casual_rentals mean_hourly_rentals].
  split_and!; try done; apply wrap_int64_fits.
Qed.

Lemma kpis_are_sums_and_mean_witness :
  ∃ k, kpis sample_df = Ok k
    ∧ total_rentals k = wrap_int64 (Zsum (int_column sample_df "count"))
    ∧ registered_rentals k
      = wrap_int64 (Zsum (int_column sample_df "registered"))
    ∧ casual_rentals k = wrap_int64 (Zsum (int_column sample_df "casual"))
    ∧ (fits_int64 (Zsum (int_column sample_df "count")) →
       total_rentals k = Zsum (int_column sample_df "count"))
    ∧ (fits_int64 (Zsum (int_column sample_df "registered")) →
       registered_rentals k = Zsum (int_column sample_df "registered"))
    ∧ (fits_int64 (Zsum (int_column sample_df "casual")) →
       casual_rentals k = Zsum (int_column sample_df "casual"))
    ∧ mean_hourly_rentals k
      = if decide (rows sample_df = []) then VNaN
        else VFloat (inject_Z (Zsum (int_column sample_df "count"))
                     / inject_Z (Z.of_nat (length (rows sample_df)))).
Proof. apply kpis_are_sums_and_mean. by vm_compute. Defined.

Lemma Zsum_zip_add {A} (g h : A → Z) (l : list A) :
  Zsum (zip_with Z.add (g <$> l) (h <$> l))
  = Zsum (g <$> l) + Zsum (h <$> l).
Proof. induction l as [|x l IH]; [done|]. csimpl. rewrite IH. lia. Qed.

(** X12. When the count column of an annotated view is, row by row, the
    casual column plus the registered column, the total rentals of the KPI
    block are its registered rentals plus its casual rentals, added in
    int64: the plain sum of the two when that fits in 64 bits. *)
Theorem kpis_total_is_registered_plus_casual f :
  annotated f →
  int_column f "count"
  = zip_with Z.add (int_column f "casual") (int_column f "registered") →
  ∃ k, kpis f = Ok k
       ∧ total_rentals k
         = wrap_int64 (registered_rentals k + casual_rentals k)
       ∧ (fits_int64 (registered_rentals k + casual_rentals k) →
          total_rentals k = registered_rentals k + casual_rentals k).
Proof.
  intros Ha Hrows. eexists. split; [by apply kpis_value|].
  cbn [total_rentals registered_rentals casual_rentals].
  assert (wrap_int64 (Zsum (int_column f "count"))
          = wrap_int64 (wrap_int64 (Zsum (int_column f "registered"))
                        + wrap_int64 (Zsum (int_column f "casual")))) as Heq.
  { rewrite wrap_int64_add, Hrows. unfold int_column.
    rewrite Zsum_zip_add. f_equal. lia. }
  split; [done|]. intros Hfit. by rewrite Heq, wrap_int64_fits.
Qed.

Lemma kpis_total_is_registered_plus_casual_witness :
  ∃ k, kpis sample_df = Ok k
       ∧ total_rentals k
         = wrap_int64 (registered_rentals k + casual_rentals k)
       ∧ (fits_int64 (registered_rentals k + casual_rentals k) →
          total_rentals k = registered_rentals k + casual_rentals k).
Proof.
  apply kpis_total_is_registered_plus_casual; [by vm_compute|].
  decide_closed.
Defined.

Lemma Zsum_app l k : Zsum (l ++ k) = Zsum l + Zsum k.
Proof. induction l as [|z l IH]; simpl; lia. Qed.

Lemma Zsum_Permutation l k : l ≡ₚ k → Zsum l = Zsum k.
Proof. induction 1; simpl; lia. Qed.

Lemma int_column_split fa fw fn c :
  rows fa ≡ₚ rows fw ++ rows fn →
  wrap_int64 (Zsum (int_column fa c))
  = wrap_int64 (wrap_int64 (Zsum (int_column fw c))
                + wrap_int64 (Zsum (int_column fn c))).
Proof.
  intros Hp. rewrite wrap_int64_add. f_equal.
  unfold int_column. rewrite <- Zsum_app, <- fmap_app.
  apply Zsum_Permutation. by rewrite Hp.
Qed.

(** X13. When every working-day flag is 0 or 1, the totals of the KPI
    block add up over the working-day choice: the total, the registered
    and the casual rentals of the view for All are those of the view for
    Working days plus those of the view for Non-working days, added in
    int64. *)
Theorem kpis_add_up_over_working_days df ys ss fa :
  annotated df → filtered df ys ss All = Ok fa →
  (∀ r, r ∈ rows fa →
        cell "workingday" r = VInt 0 ∨ cell "workingday" r = VInt 1) →
  ∃ fw fn ka kw kn,
    filtered df ys ss Working_days = Ok fw
    ∧ filtered df ys ss Non_working_days = Ok fn
    ∧ kpis fa = Ok ka ∧ kpis fw = Ok kw ∧ kpis fn = Ok kn
    ∧ total_rentals ka = wrap_int64 (total_rentals kw + total_rentals kn)
    ∧ registered_rentals ka
      = wrap_int64 (registered_rentals kw + registered_rentals kn)
    ∧ casual_rentals ka
      = wrap_int64 (casual_rentals kw + casual_rentals kn).
Proof.
  intros Ha Hfa Hflag.
  destruct (annotated_int df "workingday" Ha) as [Hw _];
    [unfold int_cols; set_solver|].
  destruct (working_days_partition df ys ss fa Hfa Hw Hflag)
    as (fw & fn & Hfw & Hfn & Hperm & _).
  assert (∀ w f, filtered df ys ss w = Ok f → annotated f) as Hann.
  { intros w f [Hc Hr]%filtered_rows. apply (annotated_sub df); [done..|].
    intros r. rewrite Hr, list_elem_of_filter. tauto. }
  exists fw, fn. do 3 eexists.
  split; [done|]. split; [done|].
  split; [apply kpis_value; by eapply Hann|].
  split; [apply kpis_value; by eapply Hann|].
  split; [apply kpis_value; by eapply Hann|].
  cbn [total_rentals registered_rentals casual_rentals].
  split_and!; by apply int_column_split.
Qed.

Lemma kpis_add_up_over_working_days_witness :
  ∃ fw fn ka kw kn,
    filtered sample_df [VInt 2011] [VStr "spring"] Working_days = Ok fw
    ∧ filtered sample_df [VInt 2011] [VStr "spring"] Non_working_days = Ok fn
    ∧ kpis sample_view = Ok ka ∧ kpis fw = Ok kw ∧ kpis fn = Ok kn
    ∧ total_rentals ka = wrap_int64 (total_rentals kw + total_rentals kn)
    ∧ registered_rentals ka
      = wrap_int64 (registered_rentals kw + registered_rentals kn)
    ∧ casual_rentals ka
      = wrap_int64 (casual_rentals kw + casual_rentals kn).
Proof.
  apply (kpis_add_up_over_working_days sample_df).
  - by vm_compute.
  - reflexivity.
  - apply Forall_forall. decide_closed.
Defined.

(** ** The scatter sample of a small view *)

Section sampling_small.
Context {rng : Type}.
Variable RandomState : Z → rng.
Variable permutation : rng → nat → list nat.

(** [permutation(n)] is a rearrangement of the positions 0 to n-1. *)
Hypothesis permutation_Permutation :
  ∀ g n, permutation g n ≡ₚ seq 0 n.

(** X10. When the filtered view has at most 5000 rows, the scatter
    sample is the whole view in shuffled order: the same rows, each as
    often as in the view, under the same columns. *)
Theorem scatter_sample_of_small_view f ambient :
  (length (rows f) ≤ 5000)%nat →
  ∃ s, scatter_sample RandomState permutation f ambient = Ok s
       ∧ columns s = columns f
       ∧ rows s ≡ₚ rows f.
Proof.
  intros Hlen. unfold scatter_sample, sample.
  rewrite Z.min_l by lia.
  assert ((Z.of_nat (length (rows f)) <? 0)
          || (Z.of_nat (length (rows f)) <? Z.of_nat (length (rows f)))
          = false) as ->.
  { apply orb_false_iff. split; apply Z.ltb_ge; lia. }
  eexists. split; [done|]. split; [done|].
  unfold take_rows, choice. cbn [rows]. rewrite Nat2Z.id.
  set (p := permutation (RandomState 0) (length (rows f))).
  assert (p ≡ₚ seq 0 (length (rows f))) as Hp
    by apply permutation_Permutation.
  rewrite take_ge by (rewrite Hp, length_seq; done).
  rewrite Hp. pose proof (omap_lookup_seq [] (rows f)) as Hall.
  cbn [app length] in Hall. by rewrite Hall.
Qed.
End sampling_small.

Lemma scatter_sample_of_small_view_witness :
  ∃ s, scatter_sample seeded reversed sample_df 7 = Ok s
       ∧ columns s = columns sample_df
       ∧ rows s ≡ₚ rows sample_df.
Proof.
  apply scatter_sample_of_small_view; [apply reversed_Permutation|].
  decide_closed.
Defined.
